(** * Shopify inventory converter: the reshape pipeline of [app.py]

    A shallow embedding of [convert_to_shopify_format] and of the upload
    handler that guards it, together with the pandas operations the
    function is written with, and the properties of the conversion. *)

From Stdlib Require Import List String Ascii Bool Arith ZArith QArith Lia.
From Stdlib Require Import DecimalString Permutation.
Import ListNotations.

Close Scope Q_scope.
Open Scope string_scope.
Open Scope list_scope.

(** ** Cells and frames *)

(** What a cell of a frame read by [pd.read_csv] holds: a missing value
    (pandas' NaN), a text, a finite number, or one of the two infinities of
    a float column ([pd.read_csv] reads the text [inf] as one).  A finite
    number is the exact rational it is, every int64 and every float64 value
    being one.  Texts are sequences of bytes, the UTF-8 form of Python's
    strings.  Where pandas moves an int64 value into a float64 column (as
    [pd.melt] does beside a float column) a whole number above 2^53 in
    magnitude is rounded; that is not modelled, and the statements that give
    the output quantity of an input cell are made below that bound. *)
Inductive cell : Type :=
| NaN : cell
| Str : string -> cell
| Num : Q -> cell
| PosInf : cell
| NegInf : cell.

(** A value of a numeric series: finite, or an infinity. *)
Inductive number : Type :=
| Finite : Q -> number
| PlusInf : number
| MinusInf : number.

(** Two cells as a join key.  pandas matches a missing key with a missing
    key, and numbers by value. *)
Definition cell_eqb (a b : cell) : bool :=
  match a, b with
  | NaN, NaN => true
  | Str s, Str t => String.eqb s t
  | Num p, Num q => Qeq_bool p q
  | PosInf, PosInf => true
  | NegInf, NegInf => true
  | _, _ => false
  end.

(** A frame: the column labels, in order, and the rows, each aligned with
    the labels.  [pd.read_csv] makes the labels distinct. *)
Record DataFrame : Type := mkDataFrame {
  columns : list string;
  rows : list (list cell)
}.

(** The exceptions the pipeline can raise: [KeyError] with the labels
    that are not in the frame, from [df[[...]]], and [IntCastingNaNError],
    from [astype(int)] on a value that is not finite. *)
Inductive exn : Type :=
| KeyError : list string -> exn
| IntCastingNaNError : exn.

Inductive result (A : Type) : Type :=
| Ok : A -> result A
| Raise : exn -> result A.

Arguments Ok {A} _.
Arguments Raise {A} _.

Definition bind {A B : Type} (m : result A) (k : A -> result B) : result B :=
  match m with
  | Ok a => k a
  | Raise e => Raise e
  end.

Notation "x <- m ;; k" := (bind m (fun x => k))
  (at level 61, m at next level, right associativity).

(** ** Python strings

    A text is the sequence of the bytes of its UTF-8 form, which is what a
    string written in this file holds. *)

Module py.

(** The characters [str.strip] removes are those of [str.isspace]:
    U+0009 to U+000D, U+001C to U+0020, U+0085, U+00A0, U+1680, U+2000 to
    U+200A, U+2028, U+2029, U+202F, U+205F and U+3000.  In UTF-8 the first
    ten take one byte, the next two take two bytes and the others three. *)
Definition byte_is (a : ascii) (n : nat) : bool := Nat.eqb (nat_of_ascii a) n.

Definition space1 (a : ascii) : bool :=
  let n := nat_of_ascii a in
  (Nat.leb 9 n && Nat.leb n 13) || (Nat.leb 28 n && Nat.leb n 32).

Definition space2 (a b : ascii) : bool :=
  byte_is a 194 && (byte_is b 133 || byte_is b 160).

Definition space3 (a b c : ascii) : bool :=
  let n := nat_of_ascii c in
  (byte_is a 225 && byte_is b 154 && byte_is c 128)
  || (byte_is a 226 && byte_is b 128
      && ((Nat.leb 128 n && Nat.leb n 138) || byte_is c 168 || byte_is c 169
          || byte_is c 175))
  || (byte_is a 226 && byte_is b 129 && byte_is c 159)
  || (byte_is a 227 && byte_is b 128 && byte_is c 128).

(** [s.lstrip()] on the bytes of [s]. *)
Fixpoint lstrip_chars (l : list ascii) : list ascii :=
  match l with
  | [] => []
  | a :: l1 =>
      if space1 a then lstrip_chars l1
      else match l1 with
           | [] => l
           | b :: l2 =>
               if space2 a b then lstrip_chars l2
               else match l2 with
                    | [] => l
                    | c :: l3 => if space3 a b c then lstrip_chars l3 else l
                    end
           end
  end.

(** [s.rstrip()] on the bytes of [s] in reverse order, the last byte
    first. *)
Fixpoint rstrip_reversed (l : list ascii) : list ascii :=
  match l with
  | [] => []
  | a :: l1 =>
      if space1 a then rstrip_reversed l1
      else match l1 with
           | [] => l
           | b :: l2 =>
               if space2 b a then rstrip_reversed l2
               else match l2 with
                    | [] => l
                    | c :: l3 => if space3 c b a then rstrip_reversed l3 else l
                    end
           end
  end.

(** [s.strip()] *)
Definition strip (s : string) : string :=
  let front := lstrip_chars (list_ascii_of_string s) in
  string_of_list_ascii (rev (rstrip_reversed (rev front))).

(** A sequence of bytes made of whitespace characters only. *)
Inductive all_space : list ascii -> Prop :=
| all_space_nil : all_space []
| all_space_1 a l : space1 a = true -> all_space l -> all_space (a :: l)
| all_space_2 a b l : space2 a b = true -> all_space l -> all_space (a :: b :: l)
| all_space_3 a b c l :
    space3 a b c = true -> all_space l -> all_space (a :: b :: c :: l).

(** A sequence of bytes that does not start with a whitespace
    character. *)
Inductive no_space_ahead : list ascii -> Prop :=
| no_space_nil : no_space_ahead []
| no_space_1 a : space1 a = false -> no_space_ahead [a]
| no_space_2 a b :
    space1 a = false -> space2 a b = false -> no_space_ahead [a; b]
| no_space_3 a b c l :
    space1 a = false -> space2 a b = false -> space3 a b c = false ->
    no_space_ahead (a :: b :: c :: l).

(** [s.split(sep)] for a one-character separator: every occurrence cuts,
    so the pieces may be empty and there is always at least one. *)
Fixpoint split (sep : ascii) (s : string) : list string :=
  match s with
  | EmptyString => [EmptyString]
  | String a s' =>
      if Ascii.eqb a sep then EmptyString :: split sep s'
      else match split sep s' with
           | [] => [String a EmptyString]
           | piece :: pieces => String a piece :: pieces
           end
  end.

(** [f'{i}'] for a natural number. *)
Definition str_of_nat (i : nat) : string :=
  NilEmpty.string_of_uint (Nat.to_uint i).

(** [range(a, b)] *)
Definition range (a b : nat) : list nat := seq a (b - a).

(** [s.replace(old, new)] for a non-empty [old]: the text is read from
    the left; where [old] starts, [new] is written and the rest of that
    occurrence is skipped, so occurrences never overlap and what was
    written is not read again. *)
Fixpoint replace_skip (old new : string) (skip : nat) (s : string) : string :=
  match s with
  | EmptyString => EmptyString
  | String c s' =>
      match skip with
      | S k => replace_skip old new k s'
      | O =>
          if String.prefix old s
          then (new ++ replace_skip old new (String.length old - 1) s')%string
          else String c (replace_skip old new 0 s')
      end
  end.

Definition replace (old new s : string) : string := replace_skip old new 0 s.

(** The character [c] is nowhere in [s]. *)
Fixpoint lacks (c : ascii) (s : string) : bool :=
  match s with
  | EmptyString => true
  | String a s' => negb (Ascii.eqb a c) && lacks c s'
  end.

End py.

(** ** The pandas operations the function uses *)

Module pd.

Section Coercions.

(** Two conversions of the pandas library, taken as they are: how a
    text reads as a number under [pd.to_numeric] ([None] where
    [errors='coerce'] gives NaN), and how a number prints under
    [astype(str)]. *)
Variable str_to_num : string -> option number.
Variable num_to_str : Q -> string.

(** [Series.astype(str)] on one cell.  On the object and float columns
    that [pd.read_csv] builds, a missing value prints as the text [nan]
    (pandas before 3.0). *)
Definition astype_str (c : cell) : string :=
  match c with
  | NaN => "nan"
  | Str s => s
  | Num q => num_to_str q
  | PosInf => "inf"
  | NegInf => "-inf"
  end.

(** [pd.to_numeric(..., errors='coerce')] on one cell; [None] is NaN. *)
Definition to_numeric (c : cell) : option number :=
  match c with
  | NaN => None
  | Str s => str_to_num s
  | Num q => Some (Finite q)
  | PosInf => Some PlusInf
  | NegInf => Some MinusInf
  end.

(** [.fillna(0)] after [to_numeric]. *)
Definition fillna0 (x : option number) : number :=
  match x with
  | Some n => n
  | None => Finite 0%Q
  end.

(** [x > 0] *)
Definition gt0 (x : number) : bool :=
  match x with
  | Finite q => negb (Qle_bool q 0%Q)
  | PlusInf => true
  | MinusInf => false
  end.

Definition isfinite (x : number) : bool :=
  match x with
  | Finite _ => true
  | _ => false
  end.

Definition int64_min : Z := (- 2 ^ 63)%Z.

(** The conversion of one value to int64 under [.astype(int)]: the
    fraction is dropped, toward zero; a value whose whole part is outside
    the int64 range gives [int64_min], as the conversion instruction of
    x86-64 does. *)
Definition astype_int (x : number) : Z :=
  match x with
  | Finite q =>
      let z := Z.quot (Qnum q) (Zpos (Qden q)) in
      if Z.leb int64_min z && Z.ltb z (2 ^ 63) then z else int64_min
  | _ => int64_min
  end.

(** [series.astype(int)], the series computed row by row over the rows of
    [df]: pandas raises [IntCastingNaNError] when a value of the series is
    not finite, and converts the values otherwise. *)
Definition astype_int_series (df : DataFrame) (series : list cell -> number) :
  result (list cell -> cell) :=
  if forallb (fun r => isfinite (series r)) (rows df)
  then Ok (fun r => Num (inject_Z (astype_int (series r))))
  else Raise IntCastingNaNError.

End Coercions.

Fixpoint index_of (c : string) (cs : list string) : option nat :=
  match cs with
  | [] => None
  | c' :: cs' =>
      if String.eqb c c' then Some 0
      else option_map S (index_of c cs')
  end.

(** [c in df.columns] *)
Definition mem (c : string) (cs : list string) : bool :=
  existsb (String.eqb c) cs.

(** The cell of row [r] under label [c]. *)
Definition at_col (cs : list string) (c : string) (r : list cell) : cell :=
  match index_of c cs with
  | Some i => nth i r NaN
  | None => NaN
  end.

(** [df[[c1, ..., cn]]]: the listed columns in the listed order, or
    [KeyError] naming the labels that are not in the frame. *)
Definition getitem (df : DataFrame) (cs : list string) : result DataFrame :=
  match filter (fun c => negb (mem c (columns df))) cs with
  | [] => Ok {| columns := cs;
                rows := map (fun r => map (fun c => at_col (columns df) c r) cs)
                            (rows df) |}
  | missing => Raise (KeyError missing)
  end.

Fixpoint replace_at (i : nat) (x : cell) (r : list cell) : list cell :=
  match i, r with
  | _, [] => []
  | O, _ :: r' => x :: r'
  | S i', y :: r' => y :: replace_at i' x r'
  end.

(** [df[c] = series], the series computed row by row: an existing column
    is overwritten in place, a new one is added at the end. *)
Definition setitem (df : DataFrame) (c : string)
           (f : list cell -> cell) : DataFrame :=
  match index_of c (columns df) with
  | Some i => {| columns := columns df;
                 rows := map (fun r => replace_at i (f r) r) (rows df) |}
  | None => {| columns := columns df ++ [c];
               rows := map (fun r => r ++ [f r]) (rows df) |}
  end.

(** [pd.melt]: one block of records per value column, in the order of
    [value_vars]; inside a block, the rows in their order. *)
Definition melt (df : DataFrame) (id_vars value_vars : list string)
           (var_name value_name : string) : DataFrame :=
  {| columns := id_vars ++ [var_name; value_name];
     rows :=
       flat_map
         (fun v =>
            map (fun r =>
                   map (fun c => at_col (columns df) c r) id_vars
                       ++ [Str v; at_col (columns df) v r])
                (rows df))
         value_vars |}.

(** [pd.merge(left, right, on=keys, how='inner')]: every pair of a left
    and a right row that agree on all keys, in the order of the left rows;
    the columns are the left ones, then the right ones that are no key.
    (No other label is shared by the two frames merged here.) *)
Definition merge (left right : DataFrame) (on : list string) : DataFrame :=
  let extra := filter (fun c => negb (mem c on)) (columns right) in
  {| columns := columns left ++ extra;
     rows :=
       flat_map
         (fun l =>
            map (fun r => l ++ map (fun c => at_col (columns right) c r) extra)
                (filter
                   (fun r =>
                      forallb (fun k => cell_eqb (at_col (columns left) k l)
                                                 (at_col (columns right) k r))
                              on)
                   (rows right)))
         (rows left) |}.

(** [df[mask]], the mask computed row by row. *)
Definition loc_mask (df : DataFrame) (mask : list cell -> bool) : DataFrame :=
  {| columns := columns df; rows := filter mask (rows df) |}.

(** [df.rename(columns=mapping)] *)
Definition rename (df : DataFrame) (mapping : list (string * string)) : DataFrame :=
  let new_label c :=
    match find (fun kv => String.eqb (fst kv) c) mapping with
    | Some kv => snd kv
    | None => c
    end in
  {| columns := map new_label (columns df); rows := rows df |}.

End pd.

(** ** The conversion *)

(** [f'Size {i}'] and [f'ots{i}'] *)
Definition size_col (i : nat) : string := ("Size " ++ py.str_of_nat i)%string.
Definition ots_col (i : nat) : string := ("ots" ++ py.str_of_nat i)%string.

(** [size_cols = [f'Size {i}' for i in range(1, 9)]] *)
Definition size_cols : list string := map size_col (py.range 1 9).

(** [ots_cols = [f'ots{i}' for i in range(1, 9)]] *)
Definition ots_cols : list string := map ots_col (py.range 1 9).

(** [[col for col in cols if col in df.columns]] *)
Definition present (cols : list string) (df : DataFrame) : list string :=
  filter (fun col => pd.mem col (columns df)) cols.

(** [.fillna('')] on one cell. *)
Definition fillna_empty (c : cell) : cell :=
  match c with
  | NaN => Str ""
  | _ => c
  end.

(** [.str.split(' ').str[-1]] after [astype(str)], on one cell. *)
Definition split_last (name : string) : cell :=
  Str (last (py.split " "%char name) "").

(** [.str[3]] after [astype(str)], on one cell: missing when the text has
    no fourth character. *)
Definition fourth_char (name : string) : cell :=
  match String.get 3 name with
  | Some a => Str (String a "")
  | None => NaN
  end.

Section Convert.

Variable str_to_num : string -> option number.
Variable num_to_str : Q -> string.

Let astype_str := pd.astype_str num_to_str.
Let to_numeric := pd.to_numeric str_to_num.

(** The mask of the filter: inventory above zero and a size label that is
    not blank. *)
Definition keep_mask (cs : list string) (r : list cell) : bool :=
  pd.gt0 (pd.fillna0 (to_numeric (pd.at_col cs "New York Showroom" r)))
  && Nat.ltb 0
       (String.length (py.strip (astype_str (pd.at_col cs "Option2 Value" r)))).

(** The first half of [convert_to_shopify_format], down to [pd.merge]:
    the frame [df_combined]. *)
Definition df_combined (df : DataFrame) : result DataFrame :=
  df_core <- pd.getitem df (["Style major"; "Color"]
                              ++ present size_cols df ++ present ots_cols df) ;;
  let df_core :=
    pd.setitem df_core "Color"
      (fun r => Str (astype_str
                       (fillna_empty (pd.at_col (columns df_core) "Color" r)))) in
  let df_sizes :=
    pd.melt df_core ["Style major"; "Color"] (present size_cols df_core)
            "Size_Col_Name" "Option2 Value" in
  let df_ots :=
    pd.melt df_core ["Style major"; "Color"] (present ots_cols df_core)
            "OTS_Col_Name" "New York Showroom" in
  let df_sizes :=
    pd.setitem df_sizes "Key"
      (fun r => split_last
                  (astype_str (pd.at_col (columns df_sizes) "Size_Col_Name" r))) in
  let df_ots :=
    pd.setitem df_ots "Key"
      (fun r => fourth_char
                  (astype_str (pd.at_col (columns df_ots) "OTS_Col_Name" r))) in
  Ok (pd.merge df_sizes df_ots ["Style major"; "Color"; "Key"]).

(** The second half: filter, rename, constant columns, integer
    quantity (which raises on an infinite value), final column order. *)
Definition clean_and_format (df_combined : DataFrame) : result DataFrame :=
  let df_cleaned := pd.loc_mask df_combined (keep_mask (columns df_combined)) in
  let df_cleaned :=
    pd.rename df_cleaned
              [("Style major", "Handle"); ("Color", "Option1 Value")] in
  let df_cleaned := pd.setitem df_cleaned "Option1 Name" (fun _ => Str "Color") in
  let df_cleaned := pd.setitem df_cleaned "Option2 Name" (fun _ => Str "Size") in
  let df_cleaned := pd.setitem df_cleaned "Option3 Name" (fun _ => NaN) in
  let df_cleaned := pd.setitem df_cleaned "Option3 Value" (fun _ => NaN) in
  whole <- pd.astype_int_series df_cleaned
             (fun r =>
                pd.fillna0
                  (to_numeric
                     (pd.at_col (columns df_cleaned) "New York Showroom" r))) ;;
  let df_cleaned := pd.setitem df_cleaned "New York Showroom" whole in
  pd.getitem df_cleaned
             ["Handle"; "Option1 Name"; "Option1 Value"; "Option2 Name";
              "Option2 Value"; "Option3 Name"; "Option3 Value";
              "New York Showroom"].

Definition convert_to_shopify_format (df : DataFrame) : result DataFrame :=
  df_combined <- df_combined df ;;
  clean_and_format df_combined.

(** *** The upload handler *)

(** What the page shows for an uploaded table: the missing-columns
    message, the converted table offered for download, or the message of
    the [except] branch. *)
Inductive shown : Type :=
| SchemaError : shown
| Converted : DataFrame -> shown
| Unexpected : exn -> shown.

Definition required_cols : list string :=
  ["Style major"; "Color"; "Size 1"; "ots1"].

(** The body of [if uploaded_file is not None], after [pd.read_csv], with
    the conversion function as an argument. *)
Definition handle_upload_with (convert : DataFrame -> result DataFrame)
           (data : DataFrame) : shown :=
  if negb (forallb (fun col => pd.mem col (columns data)) required_cols)
  then SchemaError
  else match convert data with
       | Ok df_clean => Converted df_clean
       | Raise e => Unexpected e
       end.

Definition handle_upload : DataFrame -> shown :=
  handle_upload_with convert_to_shopify_format.

End Convert.

(** The name offered for the download, from the name of the uploaded
    file: [name.replace('.csv', '').replace('WEB OTS',
    'Shopify_Cleaned').strip() + ".csv"]. *)
Definition output_filename (name : string) : string :=
  (py.strip (py.replace "WEB OTS" "Shopify_Cleaned" (py.replace ".csv" "" name))
   ++ ".csv")%string.

(** ** The function statement by statement, on a store of frames

    Python binds names to frame objects and several statements of the
    function change a frame in place ([df_core['Color'] = ...],
    [rename(..., inplace=True)]).  Here the frames live in a store, a name
    is a reference into it, and every statement of the function is one step
    over the store. *)

Module Stateful.

Definition ref : Type := nat.

(** The frames allocated so far; a reference is a position. *)
Definition store : Type := list DataFrame.

Definition empty_frame : DataFrame := {| columns := []; rows := [] |}.

Definition deref (st : store) (r : ref) : DataFrame := nth r st empty_frame.

(** A step: a result or an exception, and the store it leaves. *)
Definition St (A : Type) : Type := store -> result A * store.

Definition ret {A : Type} (a : A) : St A := fun st => (Ok a, st).

Definition lift {A : Type} (m : result A) : St A := fun st => (m, st).

Definition seq {A B : Type} (m : St A) (k : A -> St B) : St B :=
  fun st =>
    match m st with
    | (Ok a, st') => k a st'
    | (Raise e, st') => (Raise e, st')
    end.

Notation "x <~ m ;; k" := (seq m (fun x => k))
  (at level 61, m at next level, right associativity).
Notation "m ;;; k" := (seq m (fun _ => k))
  (at level 61, right associativity).

(** A new frame object. *)
Definition new (df : DataFrame) : St ref :=
  fun st => (Ok (List.length st), st ++ [df]).

Definition get (r : ref) : St DataFrame :=
  fun st => (Ok (deref st r), st).

Fixpoint put_at (r : ref) (df : DataFrame) (st : store) : store :=
  match r, st with
  | _, [] => []
  | O, _ :: st' => df :: st'
  | S r', x :: st' => x :: put_at r' df st'
  end.

Definition put (r : ref) (df : DataFrame) : St unit :=
  fun st => (Ok tt, put_at r df st).

(** An operation that returns a new frame, such as [pd.melt], [pd.merge],
    [df[mask]], [.copy()] and [.reset_index(drop=True)]. *)
Definition fresh (r : ref) (f : DataFrame -> DataFrame) : St ref :=
  x <~ get r ;; new (f x).

(** An operation that returns a new frame or raises, such as [df[[...]]]. *)
Definition fresh_or_raise (r : ref) (f : DataFrame -> result DataFrame) : St ref :=
  x <~ get r ;; y <~ lift (f x) ;; new y.

(** An operation that changes the frame itself, such as [df[c] = ...] and
    [df.rename(..., inplace=True)]. *)
Definition in_place (r : ref) (f : DataFrame -> DataFrame) : St unit :=
  x <~ get r ;; put r (f x).

(** An assignment whose right-hand side can raise, such as
    [df[c] = series.astype(int)]: the frame is changed only when the series
    was computed. *)
Definition in_place_or_raise (r : ref) (f : DataFrame -> result DataFrame) :
  St unit :=
  x <~ get r ;; y <~ lift (f x) ;; put r y.

Definition copy (x : DataFrame) : DataFrame := x.

Section Convert.

Variable str_to_num : string -> option number.
Variable num_to_str : Q -> string.

Let astype_str := pd.astype_str num_to_str.
Let to_numeric := pd.to_numeric str_to_num.

Definition convert_to_shopify_format (df : ref) : St ref :=
  selected <~ fresh_or_raise df
    (fun d => pd.getitem d (["Style major"; "Color"]
                              ++ present size_cols d ++ present ots_cols d)) ;;
  df_core <~ fresh selected copy ;;
  in_place df_core
    (fun d => pd.setitem d "Color"
       (fun r => Str (astype_str
                        (fillna_empty (pd.at_col (columns d) "Color" r))))) ;;;
  df_sizes <~ fresh df_core
    (fun d => pd.melt d ["Style major"; "Color"] (present size_cols d)
                      "Size_Col_Name" "Option2 Value") ;;
  df_ots <~ fresh df_core
    (fun d => pd.melt d ["Style major"; "Color"] (present ots_cols d)
                      "OTS_Col_Name" "New York Showroom") ;;
  in_place df_sizes
    (fun d => pd.setitem d "Key"
       (fun r => split_last
                   (astype_str (pd.at_col (columns d) "Size_Col_Name" r)))) ;;;
  in_place df_ots
    (fun d => pd.setitem d "Key"
       (fun r => fourth_char
                   (astype_str (pd.at_col (columns d) "OTS_Col_Name" r)))) ;;;
  right <~ get df_ots ;;
  df_combined <~ fresh df_sizes
    (fun left => pd.merge left right ["Style major"; "Color"; "Key"]) ;;
  masked <~ fresh df_combined
    (fun d => pd.loc_mask d (keep_mask str_to_num num_to_str (columns d))) ;;
  df_cleaned <~ fresh masked copy ;;
  in_place df_cleaned
    (fun d => pd.rename d [("Style major", "Handle");
                           ("Color", "Option1 Value")]) ;;;
  in_place df_cleaned (fun d => pd.setitem d "Option1 Name" (fun _ => Str "Color")) ;;;
  in_place df_cleaned (fun d => pd.setitem d "Option2 Name" (fun _ => Str "Size")) ;;;
  in_place df_cleaned (fun d => pd.setitem d "Option3 Name" (fun _ => NaN)) ;;;
  in_place df_cleaned (fun d => pd.setitem d "Option3 Value" (fun _ => NaN)) ;;;
  in_place_or_raise df_cleaned
    (fun d =>
       whole <- pd.astype_int_series d
                  (fun r =>
                     pd.fillna0
                       (to_numeric
                          (pd.at_col (columns d) "New York Showroom" r))) ;;
       Ok (pd.setitem d "New York Showroom" whole)) ;;;
  reordered <~ fresh_or_raise df_cleaned
    (fun d => pd.getitem d
                ["Handle"; "Option1 Name"; "Option1 Value"; "Option2 Name";
                 "Option2 Value"; "Option3 Name"; "Option3 Value";
                 "New York Showroom"]) ;;
  df_final <~ fresh reordered copy ;;
  ret df_final.

(** What a run leaves to the caller: the returned frame, or the
    exception. *)
Definition outcome (run : result ref * store) : result DataFrame :=
  match run with
  | (Ok r, st) => Ok (deref st r)
  | (Raise e, _) => Raise e
  end.

End Convert.

End Stateful.

(** A reading of texts as numbers for the examples: the unsigned decimal
    integers; and a printing of numbers that the examples never reach. *)
Definition digits (s : string) : option number :=
  match NilEmpty.uint_of_string s with
  | Some u => Some (Finite (inject_Z (Z.of_uint u)))
  | None => None
  end.

Definition no_print (q : Q) : string := "?".


(** ** Sample tables *)

Definition slot1_cols : list string := ["Style major"; "Color"; "Size 1"; "ots1"].

(** One style with half a unit on hand in slot 1. *)
Definition half_unit_table : DataFrame :=
  {| columns := slot1_cols;
     rows := [[Str "ABC123"; Str "Red"; Str "S"; Num (1 # 2)]] |}.

(** One style with five units on hand in slot 1 and no label for it. *)
Definition no_label_table : DataFrame :=
  {| columns := slot1_cols;
     rows := [[Str "ABC123"; Str "Red"; NaN; Num 5]] |}.

(** Two rows of one style and color. *)
Definition twin_rows_table : DataFrame :=
  {| columns := slot1_cols;
     rows := [[Str "ABC123"; Str "Red"; Str "S"; Num 5];
              [Str "ABC123"; Str "Red"; Str "M"; Num 7]] |}.

(** A row without a color. *)
Definition no_color_table : DataFrame :=
  {| columns := slot1_cols;
     rows := [[Str "ABC123"; NaN; Str "M"; Str "3"]] |}.





(** A record of [df_combined] with 5.9 units. *)
Definition nearly_six_table : DataFrame :=
  {| columns := slot1_cols;
     rows := [[Str "ABC123"; Str "Red"; Str "S"; Num (59 # 10)]] |}.

(** The merged frame and the output of [twin_rows_table]. *)
Definition twin_rows_merged : DataFrame :=
  {| columns := ["Style major"; "Color"; "Size_Col_Name"; "Option2 Value";
                 "Key"; "OTS_Col_Name"; "New York Showroom"];
     rows := [[Str "ABC123"; Str "Red"; Str "Size 1"; Str "S"; Str "1";
               Str "ots1"; Num 5];
              [Str "ABC123"; Str "Red"; Str "Size 1"; Str "S"; Str "1";
               Str "ots1"; Num 7];
              [Str "ABC123"; Str "Red"; Str "Size 1"; Str "M"; Str "1";
               Str "ots1"; Num 5];
              [Str "ABC123"; Str "Red"; Str "Size 1"; Str "M"; Str "1";
               Str "ots1"; Num 7]] |}.

Definition output_cols : list string :=
  ["Handle"; "Option1 Name"; "Option1 Value"; "Option2 Name";
   "Option2 Value"; "Option3 Name"; "Option3 Value"; "New York Showroom"].

Definition twin_rows_output : DataFrame :=
  {| columns := output_cols;
     rows := [[Str "ABC123"; Str "Color"; Str "Red"; Str "Size"; Str "S";
               NaN; NaN; Num 5];
              [Str "ABC123"; Str "Color"; Str "Red"; Str "Size"; Str "S";
               NaN; NaN; Num 7];
              [Str "ABC123"; Str "Color"; Str "Red"; Str "Size"; Str "M";
               NaN; NaN; Num 5];
              [Str "ABC123"; Str "Color"; Str "Red"; Str "Size"; Str "M";
               NaN; NaN; Num 7]] |}.



(** The output of [no_color_table], its quantity read from the text 3. *)
Definition no_color_output : DataFrame :=
  {| columns := output_cols;
     rows := [[Str "ABC123"; Str "Color"; Str ""; Str "Size"; Str "M";
               NaN; NaN; Num 3]] |}.

(** The labels the function reads: the two grouping columns and the
    sixteen slot columns. *)
Definition recognised : list string :=
  ["Style major"; "Color"] ++ size_cols ++ ots_cols.

(** What the function can see of a row: its cells under the recognised
    labels. *)
Definition visible (df : DataFrame) (r : list cell) : list cell :=
  map (fun c => pd.at_col (columns df) c r) recognised.

(** [twin_rows_table] with its columns in another order and two columns
    the function does not know. *)
Definition shuffled_table : DataFrame :=
  {| columns := ["Notes"; "ots1"; "Color"; "Size 9"; "Size 1"; "Style major"];
     rows := [[Str "new"; Num 5; Str "Red"; Str "XXL"; Str "S"; Str "ABC123"];
              [NaN; Num 7; Str "Red"; NaN; Str "M"; Str "ABC123"]] |}.

(** [twin_rows_table] with its two rows exchanged. *)
Definition swapped_rows_table : DataFrame :=
  {| columns := slot1_cols;
     rows := [[Str "ABC123"; Str "Red"; Str "M"; Num 7];
              [Str "ABC123"; Str "Red"; Str "S"; Num 5]] |}.

(** A table with slot 2 only. *)
Definition slot2_table : DataFrame :=
  {| columns := ["Style major"; "Color"; "Size 2"; "ots2"];
     rows := [[Str "ABC123"; Str "Red"; Str "M"; Str "4"]] |}.

(** A table with its header and no row. *)
Definition header_only_table : DataFrame :=
  {| columns := slot1_cols; rows := [] |}.

(** ** The frames of the pipeline, in closed form *)

(** The slot numbers, 1 to 8. *)
Definition slots : list nat := py.range 1 9.

Section Properties.

Set Default Proof Using "Type".

Variable str_to_num : string -> option number.
Variable num_to_str : Q -> string.

(** The two grouping values of an input row, as [df_core] holds them. *)
Definition style_of (df : DataFrame) (r : list cell) : cell :=
  pd.at_col (columns df) "Style major" r.

Definition color_of (df : DataFrame) (r : list cell) : string :=
  pd.astype_str num_to_str (fillna_empty (pd.at_col (columns df) "Color" r)).

(** The records of [df_sizes] and of [df_ots], with their key. *)
Definition size_records (df : DataFrame) : list (list cell) :=
  flat_map
    (fun v => map (fun r => [style_of df r; Str (color_of df r); Str v;
                             pd.at_col (columns df) v r; split_last v])
                  (rows df))
    (present size_cols df).

Definition ots_records (df : DataFrame) : list (list cell) :=
  flat_map
    (fun v => map (fun r => [style_of df r; Str (color_of df r); Str v;
                             pd.at_col (columns df) v r; fourth_char v])
                  (rows df))
    (present ots_cols df).

(** Style, color and key of a record are its cells 0, 1 and 4. *)
Definition same_key (l r : list cell) : bool :=
  cell_eqb (nth 0 l NaN) (nth 0 r NaN)
  && (cell_eqb (nth 1 l NaN) (nth 1 r NaN)
      && (cell_eqb (nth 4 l NaN) (nth 4 r NaN) && true)).

Definition join_records (L R : list (list cell)) : list (list cell) :=
  flat_map
    (fun l => map (fun r => l ++ [nth 2 r NaN; nth 3 r NaN])
                  (filter (same_key l) R))
    L.

Definition core_cols (df : DataFrame) : list string :=
  ["Style major"; "Color"] ++ present size_cols df ++ present ots_cols df.

(** A row of [df_core] after the color is normalised. *)
Definition core_row (df : DataFrame) (r : list cell) : list cell :=
  style_of df r :: Str (color_of df r)
    :: map (fun c => pd.at_col (columns df) c r)
           (present size_cols df ++ present ots_cols df).

(** The stages of [df_combined], named. *)
Definition core_frame (df : DataFrame) : DataFrame :=
  {| columns := core_cols df;
     rows := map (fun r => map (fun c => pd.at_col (columns df) c r) (core_cols df))
                 (rows df) |}.

Definition with_color (core : DataFrame) : DataFrame :=
  pd.setitem core "Color"
    (fun r => Str (pd.astype_str num_to_str
                     (fillna_empty (pd.at_col (columns core) "Color" r)))).

Definition sizes_frame (core : DataFrame) : DataFrame :=
  let m := pd.melt core ["Style major"; "Color"] (present size_cols core)
                   "Size_Col_Name" "Option2 Value" in
  pd.setitem m "Key"
    (fun r => split_last
                (pd.astype_str num_to_str (pd.at_col (columns m) "Size_Col_Name" r))).

Definition ots_frame (core : DataFrame) : DataFrame :=
  let m := pd.melt core ["Style major"; "Color"] (present ots_cols core)
                   "OTS_Col_Name" "New York Showroom" in
  pd.setitem m "Key"
    (fun r => fourth_char
                (pd.astype_str num_to_str (pd.at_col (columns m) "OTS_Col_Name" r))).

Definition normal_core (df : DataFrame) : DataFrame :=
  {| columns := core_cols df; rows := map (core_row df) (rows df) |}.

Definition combined_cols : list string :=
  ["Style major"; "Color"; "Size_Col_Name"; "Option2 Value"; "Key";
   "OTS_Col_Name"; "New York Showroom"].

(** A record of [df_combined], built from the slot labels [v] and [o]
    and the input rows [rs] and [ro] that gave its two halves. *)
Definition joined (df : DataFrame) (v o : string) (rs ro : list cell) : list cell :=
  [style_of df rs; Str (color_of df rs); Str v; pd.at_col (columns df) v rs;
   split_last v; Str o; pd.at_col (columns df) o ro].

(** The quantity written for a cell of an ots column. *)
Definition quantity (c : cell) : cell :=
  Num (inject_Z (pd.astype_int (pd.fillna0 (pd.to_numeric str_to_num c)))).

(** An output row, from a record of [df_combined]. *)
Definition variant (r : list cell) : list cell :=
  [nth 0 r NaN; Str "Color"; nth 1 r NaN; Str "Size"; nth 3 r NaN; NaN; NaN;
   quantity (nth 6 r NaN)].

Definition final_cols : list string :=
  ["Handle"; "Option1 Name"; "Option1 Value"; "Option2 Name";
   "Option2 Value"; "Option3 Name"; "Option3 Value"; "New York Showroom"].

(** The conversion in closed form. *)
Definition joined_records (df : DataFrame) : list (list cell) :=
  join_records (size_records df) (ots_records df).

Definition kept (r : list cell) : bool :=
  keep_mask str_to_num num_to_str combined_cols r.

(** The test [astype(int)] makes before it converts: no record that
    passed the filter has an infinite quantity. *)
Definition all_finite (J : list (list cell)) : bool :=
  forallb (fun r => pd.isfinite
                      (pd.fillna0 (pd.to_numeric str_to_num (nth 6 r NaN))))
          (filter kept J).


(** * Properties *)

(** ** Lists, labels and lookups *)

Lemma mem_In (c : string) (cs : list string) :
  pd.mem c cs = true <-> In c cs.
Proof.
  unfold pd.mem. rewrite existsb_exists. split.
  - intros [x [Hx Heq]]. apply String.eqb_eq in Heq. now subst.
  - intros H. exists c. split; [assumption | apply String.eqb_refl].
Qed.

Lemma present_In (cols : list string) (df : DataFrame) (c : string) :
  In c (present cols df) <-> In c cols /\ In c (columns df).
Proof.
  unfold present. rewrite filter_In, mem_In. reflexivity.
Qed.

Lemma map_flat_map {A B C : Type} (g : B -> C) (f : A -> list B) (l : list A) :
  map g (flat_map f l) = flat_map (fun x => map g (f x)) l.
Proof.
  induction l as [|a l IH]; simpl.
  - reflexivity.
  - now rewrite map_app, IH.
Qed.

Lemma flat_map_ext_In {A B : Type} (f g : A -> list B) (l : list A) :
  (forall a, In a l -> f a = g a) -> flat_map f l = flat_map g l.
Proof.
  induction l as [|a l IH]; simpl; intros H.
  - reflexivity.
  - rewrite (H a) by now left. rewrite IH; [reflexivity|].
    intros b Hb. apply H. now right.
Qed.

(** Looking a listed label up in a row built label by label gives the
  cell built for it. *)
Lemma at_col_map (f : string -> cell) (cs : list string) (c : string) :
  In c cs -> pd.at_col cs c (map f cs) = f c.
Proof.
  unfold pd.at_col. induction cs as [|c' cs IH]; simpl; intros H.
  - contradiction.
  - destruct (String.eqb c c') eqn:E.
    + apply String.eqb_eq in E. now subst.
    + destruct H as [H|H]; [subst; rewrite String.eqb_refl in E; discriminate|].
      specialize (IH H). destruct (pd.index_of c cs); simpl in *; assumption.
Qed.

Lemma at_col_skip (c' c : string) (cs : list string) (x : cell) (r : list cell) :
  String.eqb c c' = false ->
  pd.at_col (c' :: cs) c (x :: r) = pd.at_col cs c r.
Proof.
  unfold pd.at_col. simpl. intros ->. destruct (pd.index_of c cs); reflexivity.
Qed.

Lemma slots_spec (i : nat) : In i slots <-> 1 <= i <= 8.
Proof.
  unfold slots, py.range. rewrite in_seq. simpl. lia.
Qed.

Lemma size_cols_fresh (v : string) :
  In v size_cols ->
  String.eqb v "Style major" = false /\ String.eqb v "Color" = false
  /\ pd.mem v ots_cols = false.
Proof.
  assert (H : forallb (fun v => negb (String.eqb v "Style major")
                                && negb (String.eqb v "Color")
                                && negb (pd.mem v ots_cols)) size_cols = true)
    by reflexivity.
  rewrite forallb_forall in H. intros Hv. specialize (H v Hv).
  rewrite !andb_true_iff, !negb_true_iff in H.
  destruct H as [[H1 H2] H3]. auto.
Qed.

Lemma ots_cols_fresh (v : string) :
  In v ots_cols ->
  String.eqb v "Style major" = false /\ String.eqb v "Color" = false
  /\ pd.mem v size_cols = false.
Proof.
  assert (H : forallb (fun v => negb (String.eqb v "Style major")
                                && negb (String.eqb v "Color")
                                && negb (pd.mem v size_cols)) ots_cols = true)
    by reflexivity.
  rewrite forallb_forall in H. intros Hv. specialize (H v Hv).
  rewrite !andb_true_iff, !negb_true_iff in H.
  destruct H as [[H1 H2] H3]. auto.
Qed.

(** The key drawn from a size label and the key drawn from an ots label
  agree exactly when the two labels carry the same slot number. *)
Lemma keys_agree (i j : nat) :
  In i slots -> In j slots ->
  cell_eqb (split_last (size_col i)) (fourth_char (ots_col j)) = true <-> i = j.
Proof.
  intros Hi Hj.
  assert (H : forallb (fun i => forallb (fun j =>
               Bool.eqb (cell_eqb (split_last (size_col i)) (fourth_char (ots_col j)))
                        (Nat.eqb i j)) slots) slots = true) by reflexivity.
  rewrite forallb_forall in H. specialize (H i Hi).
  rewrite forallb_forall in H. specialize (H j Hj).
  apply Bool.eqb_prop in H. rewrite H. apply Nat.eqb_eq.
Qed.


(** ** Numbers *)

Lemma gt0_spec (q : Q) : pd.gt0 (Finite q) = true <-> (0 < q)%Q.
Proof.
  unfold pd.gt0. rewrite negb_true_iff. split.
  - intros H. apply Qnot_le_lt. intros Hle. apply Qle_bool_iff in Hle. congruence.
  - intros H. destruct (Qle_bool q 0) eqn:E; [|reflexivity].
    apply Qle_bool_iff in E. exfalso. apply (Qlt_not_le _ _ H E).
Qed.

(** Below 2^63 the conversion of a value that is not negative is its whole
    part. *)
Lemma astype_int_whole (q : Q) :
  (0 <= q)%Q -> (q < inject_Z (2 ^ 63))%Q ->
  pd.astype_int (Finite q) = (Qnum q / Zpos (Qden q))%Z.
Proof.
  destruct q as [n d]. unfold Qle, Qlt, inject_Z. cbn [Qnum Qden].
  intros H0 H1.
  change (2 ^ 63)%Z with 9223372036854775808%Z in H1.
  assert (Hn : (0 <= n)%Z) by lia.
  assert (Hlo : (0 <= n / Zpos d)%Z) by (apply Z.div_pos; lia).
  assert (Hhi : (n / Zpos d < 9223372036854775808)%Z)
    by (apply Z.div_lt_upper_bound; lia).
  unfold pd.astype_int. cbn [Qnum Qden]. cbv zeta.
  rewrite Z.quot_div_nonneg by lia.
  unfold pd.int64_min. change (2 ^ 63)%Z with 9223372036854775808%Z.
  rewrite (proj2 (Z.leb_le _ _)) by lia.
  rewrite (proj2 (Z.ltb_lt _ _)) by lia.
  reflexivity.
Qed.

Lemma astype_int_fraction (q : Q) :
  (0 < q)%Q -> (q < 1)%Q -> pd.astype_int (Finite q) = 0%Z.
Proof.
  intros H0 H1. rewrite astype_int_whole.
  - destruct q as [n d]. unfold Qlt in *. cbn [Qnum Qden] in *.
    apply Z.div_small. lia.
  - now apply Qlt_le_weak.
  - eapply Qlt_trans; [exact H1|reflexivity].
Qed.

Lemma astype_int_trunc (q : Q) :
  (0 <= q)%Q -> (q < inject_Z (2 ^ 63))%Q ->
  (inject_Z (pd.astype_int (Finite q)) <= q)%Q
  /\ (q < inject_Z (pd.astype_int (Finite q) + 1))%Q.
Proof.
  intros H0 H1. rewrite (astype_int_whole q H0 H1).
  destruct q as [n d]. unfold Qle, Qlt, inject_Z in *. cbn [Qnum Qden] in *.
  pose proof (Z.mul_div_le n (Zpos d) ltac:(lia)).
  pose proof (Z.mul_succ_div_gt n (Zpos d) ltac:(lia)).
  split; lia.
Qed.

Lemma astype_int_pos (q : Q) :
  (0 < q)%Q -> (q < inject_Z (2 ^ 63))%Q -> (0 <= pd.astype_int (Finite q))%Z.
Proof.
  intros H0 H1. rewrite astype_int_whole; [|now apply Qlt_le_weak|exact H1].
  destruct q as [n d]. unfold Qlt in H0. cbn [Qnum Qden] in *.
  apply Z.div_pos; lia.
Qed.

(** ** From the pipeline to the closed form *)

Lemma getitem_core (df : DataFrame) :
  In "Style major" (columns df) -> In "Color" (columns df) ->
  pd.getitem df (core_cols df)
  = Ok {| columns := core_cols df;
          rows := map (fun r => map (fun c => pd.at_col (columns df) c r)
                                    (core_cols df)) (rows df) |}.
Proof.
  intros Hs Hc. unfold pd.getitem.
  rewrite (filter_ext_in _ (fun _ => false)), filter_false; [reflexivity|].
  intros c Hin. apply negb_false_iff, mem_In.
  unfold core_cols in Hin. cbn [app In] in Hin.
  destruct Hin as [<-|[<-|Hin]]; try assumption.
  apply in_app_or in Hin. destruct Hin as [Hin|Hin];
    apply present_In in Hin; destruct Hin; assumption.
Qed.

(** The slot labels found in [df_core] are those found in [df]. *)
Lemma present_core_sizes (df : DataFrame) :
  filter (fun col => pd.mem col (core_cols df)) size_cols = present size_cols df.
Proof.
  unfold present. apply filter_ext_in. intros v Hv.
  destruct (size_cols_fresh v Hv) as (E1 & E2 & E3).
  unfold core_cols. cbn [app pd.mem existsb]. rewrite E1, E2. cbn [orb].
  rewrite existsb_app.
  fold (pd.mem v (present size_cols df)) (pd.mem v (present ots_cols df)).
  destruct (pd.mem v (columns df)) eqn:Em.
  - replace (pd.mem v (present size_cols df)) with true; [reflexivity|].
    symmetry. apply mem_In, present_In. split; [assumption|now apply mem_In].
  - destruct (pd.mem v (present size_cols df)) eqn:E4.
    + apply mem_In, present_In in E4. destruct E4 as [_ E4].
      apply mem_In in E4. congruence.
    + destruct (pd.mem v (present ots_cols df)) eqn:E5; [|reflexivity].
      apply mem_In, present_In in E5. destruct E5 as [_ E5].
      apply mem_In in E5. congruence.
Qed.

Lemma present_core_ots (df : DataFrame) :
  filter (fun col => pd.mem col (core_cols df)) ots_cols = present ots_cols df.
Proof.
  unfold present. apply filter_ext_in. intros v Hv.
  destruct (ots_cols_fresh v Hv) as (E1 & E2 & E3).
  unfold core_cols. cbn [app pd.mem existsb]. rewrite E1, E2. cbn [orb].
  rewrite existsb_app.
  fold (pd.mem v (present size_cols df)) (pd.mem v (present ots_cols df)).
  destruct (pd.mem v (columns df)) eqn:Em.
  - replace (pd.mem v (present ots_cols df)) with true;
      [apply orb_true_r|].
    symmetry. apply mem_In, present_In. split; [assumption|now apply mem_In].
  - destruct (pd.mem v (present size_cols df)) eqn:E4.
    + apply mem_In, present_In in E4. destruct E4 as [_ E4].
      apply mem_In in E4. congruence.
    + destruct (pd.mem v (present ots_cols df)) eqn:E5; [|reflexivity].
      apply mem_In, present_In in E5. destruct E5 as [_ E5].
      apply mem_In in E5. congruence.
Qed.

Lemma core_row_slot (df : DataFrame) (r : list cell) (v : string) :
  String.eqb v "Style major" = false -> String.eqb v "Color" = false ->
  In v (present size_cols df ++ present ots_cols df) ->
  pd.at_col (core_cols df) v (core_row df r) = pd.at_col (columns df) v r.
Proof.
  intros E1 E2 Hin. unfold core_cols, core_row. cbn [app].
  rewrite !at_col_skip by assumption.
  now apply (at_col_map (fun c => pd.at_col (columns df) c r)).
Qed.

Lemma with_color_eq (df : DataFrame) :
  with_color (core_frame df) = normal_core df.
Proof.
  unfold with_color, core_frame, normal_core, pd.setitem. cbn [columns rows].
  change (pd.index_of "Color" (core_cols df)) with (Some 1).
  cbv iota. f_equal. rewrite map_map. apply map_ext. intros r.
  reflexivity.
Qed.

Lemma sizes_frame_eq (df : DataFrame) :
  sizes_frame (normal_core df)
  = {| columns := ["Style major"; "Color"; "Size_Col_Name"; "Option2 Value"; "Key"];
       rows := size_records df |}.
Proof.
  unfold sizes_frame, pd.melt, pd.setitem. cbv zeta. cbn [columns rows app].
  change (pd.index_of "Key" _) with (@None nat). cbv iota. cbn [app].
  f_equal. unfold normal_core, present at 1. cbn [columns rows].
  rewrite present_core_sizes. unfold size_records.
  rewrite map_flat_map. apply flat_map_ext_In. intros v Hv.
  rewrite !map_map. apply map_ext. intros r.
  apply present_In in Hv as Hv'. destruct Hv' as [Hv1 Hv2].
  destruct (size_cols_fresh v Hv1) as (E1 & E2 & _).
  cbn [map app]. rewrite (core_row_slot df r v E1 E2) by (apply in_or_app; now left).
  reflexivity.
Qed.

Lemma ots_frame_eq (df : DataFrame) :
  ots_frame (normal_core df)
  = {| columns := ["Style major"; "Color"; "OTS_Col_Name"; "New York Showroom"; "Key"];
       rows := ots_records df |}.
Proof.
  unfold ots_frame, pd.melt, pd.setitem. cbv zeta. cbn [columns rows app].
  change (pd.index_of "Key" _) with (@None nat). cbv iota. cbn [app].
  f_equal. unfold normal_core, present at 1. cbn [columns rows].
  rewrite present_core_ots. unfold ots_records.
  rewrite map_flat_map. apply flat_map_ext_In. intros v Hv.
  rewrite !map_map. apply map_ext. intros r.
  apply present_In in Hv as Hv'. destruct Hv' as [Hv1 Hv2].
  destruct (ots_cols_fresh v Hv1) as (E1 & E2 & _).
  cbn [map app]. rewrite (core_row_slot df r v E1 E2) by (apply in_or_app; now right).
  reflexivity.
Qed.

Lemma merge_eq (L R : list (list cell)) :
  pd.merge
    {| columns := ["Style major"; "Color"; "Size_Col_Name"; "Option2 Value"; "Key"];
       rows := L |}
    {| columns := ["Style major"; "Color"; "OTS_Col_Name"; "New York Showroom"; "Key"];
       rows := R |}
    ["Style major"; "Color"; "Key"]
  = {| columns := combined_cols; rows := join_records L R |}.
Proof. reflexivity. Qed.

Lemma df_combined_ok (df : DataFrame) :
  In "Style major" (columns df) -> In "Color" (columns df) ->
  df_combined num_to_str df
  = Ok {| columns := combined_cols;
          rows := join_records (size_records df) (ots_records df) |}.
Proof.
  intros Hs Hc. unfold df_combined.
  fold (core_cols df). rewrite (getitem_core df Hs Hc).
  change (Ok (pd.merge (sizes_frame (with_color (core_frame df)))
                       (ots_frame (with_color (core_frame df)))
                       ["Style major"; "Color"; "Key"]) = 
          Ok {| columns := combined_cols;
          rows := join_records (size_records df) (ots_records df) |}).
  now rewrite with_color_eq, sizes_frame_eq, ots_frame_eq, merge_eq.
Qed.

Lemma join_records_In (df : DataFrame) (row : list cell) :
  In row (join_records (size_records df) (ots_records df)) <->
  exists v o rs ro,
    In v (present size_cols df) /\ In o (present ots_cols df)
    /\ In rs (rows df) /\ In ro (rows df)
    /\ cell_eqb (style_of df rs) (style_of df ro) = true
    /\ String.eqb (color_of df rs) (color_of df ro) = true
    /\ cell_eqb (split_last v) (fourth_char o) = true
    /\ row = joined df v o rs ro.
Proof.
  unfold join_records, size_records, ots_records. rewrite in_flat_map. split.
  - intros (l & Hl & Hrow). apply in_flat_map in Hl. destruct Hl as (v & Hv & Hl).
    apply in_map_iff in Hl. destruct Hl as (rs & <- & Hrs).
    apply in_map_iff in Hrow. destruct Hrow as (r & <- & Hr).
    apply filter_In in Hr. destruct Hr as [Hr Hk].
    apply in_flat_map in Hr. destruct Hr as (o & Ho & Hr).
    apply in_map_iff in Hr. destruct Hr as (ro & <- & Hro).
    unfold same_key in Hk. cbn [nth cell_eqb] in Hk.
    rewrite !andb_true_iff in Hk. destruct Hk as (K1 & K2 & K3 & _).
    exists v, o, rs, ro. repeat split; assumption.
  - intros (v & o & rs & ro & Hv & Ho & Hrs & Hro & K1 & K2 & K3 & ->).
    exists [style_of df rs; Str (color_of df rs); Str v;
            pd.at_col (columns df) v rs; split_last v]. split.
    + apply in_flat_map. exists v. split; [assumption|].
      apply in_map_iff. exists rs. split; [reflexivity|assumption].
    + apply in_map_iff.
      exists [style_of df ro; Str (color_of df ro); Str o;
              pd.at_col (columns df) o ro; fourth_char o]. split; [reflexivity|].
      apply filter_In. split.
      * apply in_flat_map. exists o. split; [assumption|].
        apply in_map_iff. exists ro. split; [reflexivity|assumption].
      * unfold same_key. cbn [nth cell_eqb]. now rewrite K1, K2, K3.
Qed.

Lemma join_records_length (df : DataFrame) (row : list cell) :
  In row (join_records (size_records df) (ots_records df)) -> List.length row = 7.
Proof.
  intros H. apply join_records_In in H.
  destruct H as (v & o & rs & ro & _ & _ & _ & _ & _ & _ & _ & ->). reflexivity.
Qed.

Lemma forallb_map {A B : Type} (p : B -> bool) (f : A -> B) (l : list A) :
  forallb p (map f l) = forallb (fun a => p (f a)) l.
Proof.
  induction l as [|a l IH]; simpl; [reflexivity|]. now rewrite IH.
Qed.

Lemma forallb_ext_in {A : Type} (p q : A -> bool) (l : list A) :
  (forall a, In a l -> p a = q a) -> forallb p l = forallb q l.
Proof.
  induction l as [|a l IH]; simpl; intros H; [reflexivity|].
  rewrite (H a) by now left. rewrite IH; [reflexivity|].
  intros b Hb. apply H. now right.
Qed.

Lemma clean_and_format_eq (J : list (list cell)) :
  (forall r, In r J -> List.length r = 7) ->
  clean_and_format str_to_num num_to_str {| columns := combined_cols; rows := J |}
  = if all_finite J
    then Ok {| columns := final_cols;
               rows := map variant
                           (filter (keep_mask str_to_num num_to_str combined_cols)
                                   J) |}
    else Raise IntCastingNaNError.
Proof.
  intros HJ. unfold clean_and_format. cbv zeta.
  set (mask := keep_mask str_to_num num_to_str _).
  match goal with
  | |- bind (pd.astype_int_series ?X _) _ = _ =>
      change X with
        {| columns := ["Handle"; "Option1 Value"; "Size_Col_Name"; "Option2 Value";
                       "Key"; "OTS_Col_Name"; "New York Showroom"; "Option1 Name";
                       "Option2 Name"; "Option3 Name"; "Option3 Value"];
           rows :=
             map (fun r => r ++ [NaN])
                 (map (fun r => r ++ [NaN])
                      (map (fun r => r ++ [Str "Size"])
                           (map (fun r => r ++ [Str "Color"])
                                (filter mask J)))) |}
  end.
  unfold pd.astype_int_series. cbn [columns rows].
  rewrite !forallb_map.
  rewrite (forallb_ext_in _
             (fun r => pd.isfinite
                         (pd.fillna0 (pd.to_numeric str_to_num (nth 6 r NaN))))).
  2:{ intros r Hr. apply filter_In in Hr. destruct Hr as [Hr _]. apply HJ in Hr.
      do 8 (destruct r as [|? r]; try discriminate Hr). reflexivity. }
  change (forallb _ (filter mask J)) with (all_finite J).
  destruct (all_finite J); [|reflexivity].
  cbn [bind]. unfold pd.setitem. cbn [columns rows].
  change (pd.index_of "New York Showroom" _) with (Some 6).
  cbv iota. unfold pd.getitem. cbn [columns rows].
  change (filter _ ["Handle"; "Option1 Name"; "Option1 Value"; "Option2 Name";
                    "Option2 Value"; "Option3 Name"; "Option3 Value";
                    "New York Showroom"]) with (@nil string).
  cbv iota. unfold final_cols. f_equal. f_equal.
  rewrite !map_map. apply map_ext_in. intros r Hr.
  apply filter_In in Hr. destruct Hr as [Hr _]. apply HJ in Hr.
  do 8 (destruct r as [|? r]; try discriminate Hr).
  reflexivity.
Qed.

(** The conversion in closed form. *)
Lemma convert_result (df : DataFrame) :
  In "Style major" (columns df) -> In "Color" (columns df) ->
  convert_to_shopify_format str_to_num num_to_str df
  = if all_finite (joined_records df)
    then Ok {| columns := final_cols;
               rows := map variant (filter kept (joined_records df)) |}
    else Raise IntCastingNaNError.
Proof.
  intros Hs Hc. unfold convert_to_shopify_format.
  rewrite (df_combined_ok df Hs Hc). cbn [bind].
  apply clean_and_format_eq. apply join_records_length.
Qed.

Lemma convert_ok (df : DataFrame) :
  In "Style major" (columns df) -> In "Color" (columns df) ->
  all_finite (joined_records df) = true ->
  convert_to_shopify_format str_to_num num_to_str df
  = Ok {| columns := final_cols;
          rows := map variant (filter kept (joined_records df)) |}.
Proof.
  intros Hs Hc Hfin. rewrite (convert_result df Hs Hc). now rewrite Hfin.
Qed.

Lemma df_combined_raises (df : DataFrame) :
  ~ (In "Style major" (columns df) /\ In "Color" (columns df)) ->
  exists missing, df_combined num_to_str df = Raise (KeyError missing).
Proof.
  intros H. unfold df_combined, pd.getitem.
  destruct (filter _ _) as [|c cs] eqn:E.
  - exfalso. apply H.
    assert (F : forall c, In c ["Style major"; "Color"] -> In c (columns df)).
    { intros c Hc. apply mem_In.
      destruct (pd.mem c (columns df)) eqn:Em; [reflexivity|].
      assert (Hin : In c []); [|contradiction].
      rewrite <- E. apply filter_In. split.
      - apply in_or_app. now left.
      - now rewrite Em. }
    split; apply F; simpl; auto.
  - exists (c :: cs). reflexivity.
Qed.

Lemma convert_raises (df : DataFrame) :
  ~ (In "Style major" (columns df) /\ In "Color" (columns df)) ->
  exists missing,
    convert_to_shopify_format str_to_num num_to_str df = Raise (KeyError missing).
Proof.
  intros H. destruct (df_combined_raises df H) as [m Hm].
  exists m. unfold convert_to_shopify_format. now rewrite Hm.
Qed.

(** ** Where an output row comes from *)

Lemma has_columns_dec (df : DataFrame) :
  {In "Style major" (columns df) /\ In "Color" (columns df)}
  + {~ (In "Style major" (columns df) /\ In "Color" (columns df))}.
Proof.
  destruct (pd.mem "Style major" (columns df)) eqn:E1;
    destruct (pd.mem "Color" (columns df)) eqn:E2;
    try (left; split; now apply mem_In);
    right; intros [H1 H2]; apply mem_In in H1, H2; congruence.
Qed.


Lemma convert_inv (df out : DataFrame) :
  convert_to_shopify_format str_to_num num_to_str df = Ok out ->
  In "Style major" (columns df) /\ In "Color" (columns df)
  /\ out = {| columns := final_cols;
              rows := map variant (filter kept (joined_records df)) |}.
Proof.
  intros H. destruct (has_columns_dec df) as [[Hs Hc]|Hn].
  - rewrite (convert_result df Hs Hc) in H.
    destruct (all_finite (joined_records df)); [|discriminate H].
    injection H as <-. auto.
  - destruct (convert_raises df Hn) as [m Hm]. congruence.
Qed.

Lemma convert_inv_finite (df out : DataFrame) :
  convert_to_shopify_format str_to_num num_to_str df = Ok out ->
  all_finite (joined_records df) = true.
Proof.
  intros H. destruct (has_columns_dec df) as [[Hs Hc]|Hn].
  - rewrite (convert_result df Hs Hc) in H.
    destruct (all_finite (joined_records df)); [reflexivity|discriminate H].
  - destruct (convert_raises df Hn) as [m Hm]. congruence.
Qed.

Lemma size_cols_In (v : string) :
  In v size_cols <-> exists i, In i slots /\ v = size_col i.
Proof.
  unfold size_cols. fold slots. rewrite in_map_iff.
  split; intros (i & H1 & H2); exists i; auto.
Qed.

Lemma ots_cols_In (v : string) :
  In v ots_cols <-> exists i, In i slots /\ v = ots_col i.
Proof.
  unfold ots_cols. fold slots. rewrite in_map_iff.
  split; intros (i & H1 & H2); exists i; auto.
Qed.

(** The two halves of a record of [df_combined] carry one slot number. *)
Lemma joined_records_slot (df : DataFrame) (row : list cell) :
  In row (joined_records df) <->
  exists i rs ro,
    In i slots /\ In (size_col i) (columns df) /\ In (ots_col i) (columns df)
    /\ In rs (rows df) /\ In ro (rows df)
    /\ cell_eqb (style_of df rs) (style_of df ro) = true
    /\ color_of df rs = color_of df ro
    /\ row = joined df (size_col i) (ots_col i) rs ro.
Proof.
  unfold joined_records. rewrite join_records_In. split.
  - intros (v & o & rs & ro & Hv & Ho & Hrs & Hro & K1 & K2 & K3 & ->).
    apply present_In in Hv, Ho. destruct Hv as [Hv Hv'], Ho as [Ho Ho'].
    apply size_cols_In in Hv. destruct Hv as (i & Hi & ->).
    apply ots_cols_In in Ho. destruct Ho as (j & Hj & ->).
    apply (keys_agree i j Hi Hj) in K3. subst j.
    apply String.eqb_eq in K2.
    exists i, rs, ro. repeat split; assumption.
  - intros (i & rs & ro & Hi & Hv & Ho & Hrs & Hro & K1 & K2 & ->).
    exists (size_col i), (ots_col i), rs, ro.
    repeat split; try assumption.
    + apply present_In. split; [|assumption]. apply size_cols_In. eauto.
    + apply present_In. split; [|assumption]. apply ots_cols_In. eauto.
    + rewrite K2. apply String.eqb_refl.
    + now apply keys_agree.
Qed.

Lemma kept_joined (df : DataFrame) (v o : string) (rs ro : list cell) :
  kept (joined df v o rs ro)
  = pd.gt0 (pd.fillna0 (pd.to_numeric str_to_num (pd.at_col (columns df) o ro)))
    && Nat.ltb 0 (String.length
                    (py.strip (pd.astype_str num_to_str
                                             (pd.at_col (columns df) v rs)))).
Proof. reflexivity. Qed.

Lemma variant_joined (df : DataFrame) (v o : string) (rs ro : list cell) :
  variant (joined df v o rs ro)
  = [style_of df rs; Str "Color"; Str (color_of df rs); Str "Size";
     pd.at_col (columns df) v rs; NaN; NaN;
     quantity (pd.at_col (columns df) o ro)].
Proof. reflexivity. Qed.

(** Every output row is built from one size cell and one ots cell of the
    same slot, taken from two input rows of one style and color, and the
    pair passed the filter. *)
Lemma output_row_origin (df out : DataFrame) (orow : list cell) :
  convert_to_shopify_format str_to_num num_to_str df = Ok out ->
  (In orow (rows out) <->
   exists i rs ro,
     In i slots /\ In (size_col i) (columns df) /\ In (ots_col i) (columns df)
     /\ In rs (rows df) /\ In ro (rows df)
     /\ cell_eqb (style_of df rs) (style_of df ro) = true
     /\ color_of df rs = color_of df ro
     /\ kept (joined df (size_col i) (ots_col i) rs ro) = true
     /\ orow = variant (joined df (size_col i) (ots_col i) rs ro)).
Proof.
  intros H. apply convert_inv in H. destruct H as (_ & _ & ->). cbn [rows].
  rewrite in_map_iff. split.
  - intros (row & <- & Hrow). apply filter_In in Hrow. destruct Hrow as [Hrow Hk].
    apply joined_records_slot in Hrow.
    destruct Hrow as (i & rs & ro & Hi & Hv & Ho & Hrs & Hro & K1 & K2 & ->).
    exists i, rs, ro. repeat split; assumption.
  - intros (i & rs & ro & Hi & Hv & Ho & Hrs & Hro & K1 & K2 & Hk & ->).
    exists (joined df (size_col i) (ots_col i) rs ro). split; [reflexivity|].
    apply filter_In. split; [|assumption].
    apply joined_records_slot. exists i, rs, ro. repeat split; assumption.
Qed.

(** ** Infinite quantities *)

Lemma kept_record_finite (df out : DataFrame) (row : list cell) :
  convert_to_shopify_format str_to_num num_to_str df = Ok out ->
  In row (joined_records df) -> kept row = true ->
  exists q,
    pd.fillna0 (pd.to_numeric str_to_num (nth 6 row NaN)) = Finite q
    /\ (0 < q)%Q.
Proof.
  intros Hconv Hrow Hk. apply convert_inv_finite in Hconv.
  unfold all_finite in Hconv. rewrite forallb_forall in Hconv.
  specialize (Hconv row (proj2 (filter_In _ _ _) (conj Hrow Hk))).
  unfold kept, keep_mask in Hk. apply andb_true_iff in Hk. destruct Hk as [Hq _].
  change (pd.at_col combined_cols "New York Showroom" row)
    with (nth 6 row NaN) in Hq.
  destruct (pd.fillna0 (pd.to_numeric str_to_num (nth 6 row NaN))) as [q| |];
    try discriminate Hconv.
  exists q. split; [reflexivity|]. now apply gt0_spec.
Qed.

Lemma no_inf_all_finite (df : DataFrame) :
  (forall r i, In r (rows df) -> In i slots ->
     pd.to_numeric str_to_num (pd.at_col (columns df) (ots_col i) r)
     <> Some PlusInf) ->
  all_finite (joined_records df) = true.
Proof.
  intros Hfin. unfold all_finite. apply forallb_forall. intros row Hrow.
  apply filter_In in Hrow. destruct Hrow as [Hrow Hk].
  apply joined_records_slot in Hrow.
  destruct Hrow as (i & rs & ro & Hi & Hv & Ho & Hrs & Hro & K1 & K2 & ->).
  rewrite kept_joined in Hk. apply andb_true_iff in Hk. destruct Hk as [Hq _].
  change (nth 6 (joined df (size_col i) (ots_col i) rs ro) NaN)
    with (pd.at_col (columns df) (ots_col i) ro).
  specialize (Hfin ro i Hro Hi).
  destruct (pd.to_numeric str_to_num (pd.at_col (columns df) (ots_col i) ro))
    as [[q| |]|]; try reflexivity.
  - now contradiction Hfin.
  - discriminate Hq.
Qed.

(** ** The store: steps on frames allocated by the run *)

Lemma put_at_app (st L : Stateful.store) (k : nat) (x : DataFrame) :
  Stateful.put_at (List.length st + k) x (st ++ L) = st ++ Stateful.put_at k x L.
Proof.
  induction st as [|y st IH]; simpl.
  - reflexivity.
  - now rewrite IH.
Qed.

Lemma seq_ok {A B : Type} (m : Stateful.St A) (k : A -> Stateful.St B)
      (st st' : Stateful.store) (a : A) :
  m st = (Ok a, st') -> Stateful.seq m k st = k a st'.
Proof. unfold Stateful.seq. now intros ->. Qed.

Lemma seq_raise {A B : Type} (m : Stateful.St A) (k : A -> Stateful.St B)
      (st st' : Stateful.store) (e : exn) :
  m st = (Raise e, st') -> Stateful.seq m k st = (Raise e, st').
Proof. unfold Stateful.seq. now intros ->. Qed.

Lemma get_local (st L : Stateful.store) (k : nat) :
  Stateful.get (List.length st + k) (st ++ L)
  = (Ok (nth k L Stateful.empty_frame), st ++ L).
Proof.
  unfold Stateful.get, Stateful.deref. now rewrite app_nth2_plus.
Qed.

Lemma fresh_local (st L : Stateful.store) (k : nat) (f : DataFrame -> DataFrame) :
  Stateful.fresh (List.length st + k) f (st ++ L)
  = (Ok (List.length st + List.length L),
     st ++ (L ++ [f (nth k L Stateful.empty_frame)])).
Proof.
  unfold Stateful.fresh. rewrite (seq_ok _ _ _ _ _ (get_local st L k)).
  unfold Stateful.new. now rewrite length_app, app_assoc.
Qed.

Lemma in_place_local (st L : Stateful.store) (k : nat) (f : DataFrame -> DataFrame) :
  Stateful.in_place (List.length st + k) f (st ++ L)
  = (Ok tt, st ++ Stateful.put_at k (f (nth k L Stateful.empty_frame)) L).
Proof.
  unfold Stateful.in_place. rewrite (seq_ok _ _ _ _ _ (get_local st L k)).
  unfold Stateful.put. now rewrite put_at_app.
Qed.

Lemma fresh_or_raise_local (st L : Stateful.store) (k : nat)
      (f : DataFrame -> result DataFrame) (y : DataFrame) :
  f (nth k L Stateful.empty_frame) = Ok y ->
  Stateful.fresh_or_raise (List.length st + k) f (st ++ L)
  = (Ok (List.length st + List.length L), st ++ (L ++ [y])).
Proof.
  intros Hy. unfold Stateful.fresh_or_raise.
  rewrite (seq_ok _ _ _ _ _ (get_local st L k)).
  unfold Stateful.seq, Stateful.lift, Stateful.new. rewrite Hy.
  now rewrite length_app, app_assoc.
Qed.

Lemma fresh_or_raise_first (st : Stateful.store) (r : Stateful.ref)
      (f : DataFrame -> result DataFrame) :
  Stateful.fresh_or_raise r f st
  = match f (Stateful.deref st r) with
    | Ok y => (Ok (List.length st + 0), st ++ [y])
    | Raise e => (Raise e, st)
    end.
Proof.
  unfold Stateful.fresh_or_raise, Stateful.seq, Stateful.get, Stateful.lift,
    Stateful.new.
  destruct (f (Stateful.deref st r)); [|reflexivity].
  now rewrite Nat.add_0_r.
Qed.

Lemma in_place_or_raise_local (st L : Stateful.store) (k : nat)
      (f : DataFrame -> result DataFrame) :
  Stateful.in_place_or_raise (List.length st + k) f (st ++ L)
  = match f (nth k L Stateful.empty_frame) with
    | Ok y => (Ok tt, st ++ Stateful.put_at k y L)
    | Raise e => (Raise e, st ++ L)
    end.
Proof.
  unfold Stateful.in_place_or_raise.
  rewrite (seq_ok _ _ _ _ _ (get_local st L k)).
  unfold Stateful.seq, Stateful.lift, Stateful.put.
  destruct (f (nth k L Stateful.empty_frame)); [|reflexivity].
  now rewrite put_at_app.
Qed.

Ltac run_step :=
  first
    [ rewrite (seq_ok _ _ _ _ _ (fresh_local _ _ _ _))
    | rewrite (seq_ok _ _ _ _ _ (in_place_local _ _ _ _))
    | rewrite (seq_ok _ _ _ _ _ (get_local _ _ _)) ];
  cbn [List.length app nth Stateful.put_at].

(** One run of the function on a store: the frame it returns, or the
    exception it raises, is what [convert_to_shopify_format] computes from
    the frame under the reference it was given, and the store it leaves is
    the one it found, followed by the frames it allocated. *)
Lemma run_refines (st : Stateful.store) (df : Stateful.ref) :
  let run := Stateful.convert_to_shopify_format str_to_num num_to_str df st in
  Stateful.outcome run
  = convert_to_shopify_format str_to_num num_to_str (Stateful.deref st df)
  /\ exists L, snd run = st ++ L.
Proof.
  cbv zeta. set (d := Stateful.deref st df).
  assert (Hrun : exists res L,
             Stateful.convert_to_shopify_format str_to_num num_to_str df st
             = (res, st ++ L)
             /\ Stateful.outcome (res, st ++ L)
                = convert_to_shopify_format str_to_num num_to_str d).
  { unfold Stateful.convert_to_shopify_format.
    unfold convert_to_shopify_format, df_combined, clean_and_format.
    unfold Stateful.seq at 1. rewrite fresh_or_raise_first. fold d.
    unfold pd.getitem at 1 3.
    destruct (filter _ _) as [|c cs] eqn:E.
    - cbn [bind]. do 15 run_step.
      unfold Stateful.seq at 1. rewrite in_place_or_raise_local. cbn [nth].
      unfold pd.astype_int_series.
      match goal with
      | |- context [bind (if forallb ?p ?l then _ else _) _ ] =>
          set (b := forallb p l)
      end.
      change (forallb _ _) with b.
      destruct b; cbn [bind].
      + erewrite seq_ok; [|apply fresh_or_raise_local; cbn [nth]; reflexivity].
        cbn [List.length app nth Stateful.put_at].
        run_step. unfold Stateful.ret. eexists. eexists. split; [reflexivity|].
        unfold Stateful.outcome, Stateful.deref.
        rewrite app_nth2_plus. reflexivity.
      + eexists. eexists. split; reflexivity.
    - exists (Raise (KeyError (c :: cs))), []. rewrite app_nil_r.
      split; reflexivity. }
  destruct Hrun as (res & L & Hrun & Ho). rewrite Hrun. split.
  - exact Ho.
  - exists L. reflexivity.
Qed.

(** * The claims *)

(** Opens an output row: names the slot and the two input rows it was
    built from. *)
Ltac origin Hconv Hin :=
  let i := fresh "i" in
  let rs := fresh "rs" in
  let ro := fresh "ro" in
  apply (proj1 (output_row_origin _ _ _ Hconv)) in Hin;
  destruct Hin as (i & rs & ro & ?Hi & ?Hsize & ?Hots & ?Hrs & ?Hro
                   & ?Hstyle & ?Hcolor & ?Hkept & ->);
  apply convert_inv in Hconv; destruct Hconv as (?Hsm & ?Hcol & ->);
  cbn [columns rows].

(** C1, at the failing input: half a unit on hand passes the filter
    [> 0] and is then written as the integer 0, so the output holds a row
    whose quantity is not above zero. *)
Theorem fraction_emitted_as_zero :
  convert_to_shopify_format str_to_num num_to_str half_unit_table
  = Ok {| columns := final_cols;
          rows := [[Str "ABC123"; Str "Color"; Str "Red"; Str "Size"; Str "S";
                    NaN; NaN; Num 0]] |}.
Proof. reflexivity. Qed.

(** What does hold of every output quantity: it is the conversion of a
    source quantity above zero; for a source below 2^63 it is not negative,
    and it is above zero exactly when the source is at least one. *)
Lemma output_quantity_sign (df out : DataFrame) (orow : list cell) :
  convert_to_shopify_format str_to_num num_to_str df = Ok out ->
  In orow (rows out) ->
  exists (z : Z) (q : Q),
    pd.at_col (columns out) "New York Showroom" orow = Num (inject_Z z)
    /\ z = pd.astype_int (Finite q) /\ (0 < q)%Q
    /\ ((q < inject_Z (2 ^ 63))%Q ->
        (0 <= z)%Z /\ ((0 < z)%Z <-> (1 <= q)%Q)).
Proof.
  intros Hconv Hin.
  apply (proj1 (output_row_origin _ _ _ Hconv)) in Hin.
  destruct Hin as (i & rs & ro & Hi & Hv & Ho & Hrs & Hro & K1 & K2 & Hk & ->).
  destruct (kept_record_finite df out _ Hconv
              (proj2 (joined_records_slot df _)
                 (ex_intro _ i (ex_intro _ rs (ex_intro _ ro
                    (conj Hi (conj Hv (conj Ho (conj Hrs (conj Hro
                       (conj K1 (conj K2 eq_refl)))))))))))
              Hk) as (q & Eq & Hq).
  apply convert_inv in Hconv. destruct Hconv as (_ & _ & ->). cbn [columns].
  exists (pd.astype_int (Finite q)), q. split; [|split; [reflexivity|split]].
  - change (quantity (pd.at_col (columns df) (ots_col i) ro)
            = Num (inject_Z (pd.astype_int (Finite q)))).
    unfold quantity.
    change (nth 6 (joined df (size_col i) (ots_col i) rs ro) NaN)
      with (pd.at_col (columns df) (ots_col i) ro) in Eq.
    now rewrite Eq.
  - exact Hq.
  - intros Hr. split; [now apply astype_int_pos|]. split.
    + intros Hz. destruct (Qlt_le_dec q 1) as [Hlt|Hle]; [|assumption].
      rewrite (astype_int_fraction q Hq Hlt) in Hz. lia.
    + intros H1. destruct (astype_int_trunc q) as [_ Hup].
      * now apply Qlt_le_weak.
      * exact Hr.
      * assert (Hlt : (1 < inject_Z (pd.astype_int (Finite q) + 1))%Q)
          by (eapply Qle_lt_trans; eassumption).
        unfold Qlt, inject_Z in Hlt. cbn [Qnum Qden] in Hlt. lia.
Qed.

(** C2, at the failing input: a missing size label is read by the filter
    as the text [nan], which is not blank, so the row is kept and the
    output holds a row without a size label. *)
Theorem missing_label_emitted :
  convert_to_shopify_format str_to_num num_to_str no_label_table
  = Ok {| columns := final_cols;
          rows := [[Str "ABC123"; Str "Color"; Str "Red"; Str "Size"; NaN;
                    NaN; NaN; Num 5]] |}.
Proof. reflexivity. Qed.

(** What does hold of every output label: printed as text it is not blank;
    so a label that is a text is not blank after trimming. *)
Lemma output_label_not_blank (df out : DataFrame) (orow : list cell) :
  convert_to_shopify_format str_to_num num_to_str df = Ok out ->
  In orow (rows out) ->
  let label := pd.at_col (columns out) "Option2 Value" orow in
  py.strip (pd.astype_str num_to_str label) <> ""
  /\ forall s, label = Str s -> py.strip s <> "".
Proof.
  intros Hconv Hin. origin Hconv Hin.
  rewrite kept_joined, andb_true_iff in Hkept. destruct Hkept as [_ Hl].
  apply Nat.ltb_lt in Hl.
  set (label := pd.at_col final_cols _ _).
  change label with (pd.at_col (columns df) (size_col i) rs) in *.
  cbv zeta. split.
  - intros E. rewrite E in Hl. simpl in Hl. lia.
  - intros s Hs. rewrite Hs in Hl. simpl in Hl.
    intros E. rewrite E in Hl. simpl in Hl. lia.
Qed.







(** C5: the function changes no frame it was not the one to allocate, and
    what it returns is determined by the frame it is given.  So a second
    call on the same input, made after the first, returns the same table
    (any serialisation of the two is the same text), and so does a call on
    any other store that holds the same frame. *)
Theorem conversion_deterministic (st : Stateful.store) (df : Stateful.ref) :
  df < List.length st ->
  let first := Stateful.convert_to_shopify_format str_to_num num_to_str df st in
  let second :=
    Stateful.convert_to_shopify_format str_to_num num_to_str df (snd first) in
  (forall r, r < List.length st ->
     Stateful.deref (snd first) r = Stateful.deref st r)
  /\ Stateful.outcome second = Stateful.outcome first
  /\ (forall (to_csv : DataFrame -> string) t1 t2,
        Stateful.outcome first = Ok t1 -> Stateful.outcome second = Ok t2 ->
        to_csv t2 = to_csv t1)
  /\ (forall st' df',
        Stateful.deref st' df' = Stateful.deref st df ->
        Stateful.outcome
          (Stateful.convert_to_shopify_format str_to_num num_to_str df' st')
        = Stateful.outcome first).
Proof.
  intros Hdf first second.
  destruct (run_refines st df) as [H1 [L HL]]. fold first in H1, HL.
  assert (Hkeep : forall r, r < List.length st ->
                    Stateful.deref (snd first) r = Stateful.deref st r).
  { intros r Hr. rewrite HL. unfold Stateful.deref. now apply app_nth1. }
  assert (Hsame : Stateful.outcome second = Stateful.outcome first).
  { destruct (run_refines (snd first) df) as [H2 _]. fold second in H2.
    rewrite H2, H1. now rewrite (Hkeep df Hdf). }
  repeat split.
  - exact Hkeep.
  - exact Hsame.
  - intros to_csv t1 t2 E1 E2. rewrite Hsame, E1 in E2. now injection E2 as ->.
  - intros st' df' E. destruct (run_refines st' df') as [H3 _].
    rewrite H3, H1. now rewrite E.
Qed.


(** C7: the output has the eight columns Handle, Option1 Name, Option1
    Value, Option2 Name, Option2 Value, Option3 Name, Option3 Value, New York
    Showroom, in this order; each row has eight cells; its Handle is the
    Style major of the input row its size label was read from, its two
    option names are the texts Color and Size, and its third option is
    missing. *)
Theorem output_shape (df out : DataFrame) :
  convert_to_shopify_format str_to_num num_to_str df = Ok out ->
  columns out = ["Handle"; "Option1 Name"; "Option1 Value"; "Option2 Name";
                 "Option2 Value"; "Option3 Name"; "Option3 Value";
                 "New York Showroom"]
  /\ forall orow, In orow (rows out) ->
       List.length orow = 8
       /\ (exists i rs, In i slots /\ In rs (rows df)
             /\ pd.at_col (columns out) "Handle" orow
                = pd.at_col (columns df) "Style major" rs
             /\ pd.at_col (columns out) "Option2 Value" orow
                = pd.at_col (columns df) (size_col i) rs)
       /\ pd.at_col (columns out) "Option1 Name" orow = Str "Color"
       /\ pd.at_col (columns out) "Option2 Name" orow = Str "Size"
       /\ pd.at_col (columns out) "Option3 Name" orow = NaN
       /\ pd.at_col (columns out) "Option3 Value" orow = NaN.
Proof.
  intros Hconv. split.
  - apply convert_inv in Hconv. now destruct Hconv as (_ & _ & ->).
  - intros orow Hin. origin Hconv Hin. split; [reflexivity|]. split.
    + exists i, rs. repeat split; assumption.
    + repeat split.
Qed.

(** C8: every output row carries as Option1 Value a text, the normalised
    color shared by the two input rows it was built from; when the Color of
    either of them is missing, that text is the empty one. *)
Theorem missing_color_is_empty_text (df out : DataFrame) :
  convert_to_shopify_format str_to_num num_to_str df = Ok out ->
  (forall r, pd.at_col (columns df) "Color" r = NaN -> color_of df r = "")
  /\ forall orow, In orow (rows out) ->
       exists i rs ro,
         In i slots /\ In rs (rows df) /\ In ro (rows df)
         /\ pd.at_col (columns out) "Handle" orow = style_of df rs
         /\ pd.at_col (columns out) "Option2 Value" orow
            = pd.at_col (columns df) (size_col i) rs
         /\ pd.at_col (columns out) "New York Showroom" orow
            = quantity (pd.at_col (columns df) (ots_col i) ro)
         /\ pd.at_col (columns out) "Option1 Value" orow = Str (color_of df rs)
         /\ color_of df ro = color_of df rs
         /\ (pd.at_col (columns df) "Color" rs = NaN
             \/ pd.at_col (columns df) "Color" ro = NaN ->
             pd.at_col (columns out) "Option1 Value" orow = Str "").
Proof.
  intros Hconv.
  assert (Hnan : forall r, pd.at_col (columns df) "Color" r = NaN ->
                           color_of df r = "").
  { intros r Hr. unfold color_of. now rewrite Hr. }
  split; [exact Hnan|].
  intros orow Hin. origin Hconv Hin.
  exists i, rs, ro. repeat split; try assumption; try reflexivity.
  - now symmetry.
  - intros [Hn|Hn].
    + change (Str (color_of df rs) = Str ""). now rewrite (Hnan rs Hn).
    + change (Str (color_of df rs) = Str ""). now rewrite Hcolor, (Hnan ro Hn).
Qed.



End Properties.

(** * The theorems at sample tables *)


(** No quantity cell of a sample table reads as plus infinity: every
    row, every slot. *)
Ltac no_infinity :=
  let r := fresh "r" in
  let i := fresh "i" in
  let Hr := fresh "Hr" in
  let Hi := fresh "Hi" in
  intros r i Hr Hi; simpl in Hr;
  cbv [slots py.range seq Nat.sub In] in Hi;
  repeat (destruct Hr as [<-|Hr];
          [repeat (destruct Hi as [<-|Hi]; [vm_compute; discriminate|]);
           contradiction|]);
  contradiction.




(** [conversion_deterministic] on a store that holds one table. *)
Lemma conversion_deterministic_witness :
  0 < List.length [twin_rows_table]
  /\ Stateful.outcome
       (Stateful.convert_to_shopify_format digits no_print 0
          (snd (Stateful.convert_to_shopify_format digits no_print 0
                  [twin_rows_table])))
     = Stateful.outcome
         (Stateful.convert_to_shopify_format digits no_print 0 [twin_rows_table])
  /\ Stateful.outcome
       (Stateful.convert_to_shopify_format digits no_print 0 [twin_rows_table])
     = Ok twin_rows_output.
Proof.
  assert (H : 0 < List.length [twin_rows_table]) by (simpl; lia).
  split; [exact H|]. split.
  - exact (proj1 (proj2 (conversion_deterministic digits no_print
                           [twin_rows_table] 0 H))).
  - reflexivity.
Defined.



(** [output_shape] at two rows of one style and color. *)
Lemma output_shape_witness :
  convert_to_shopify_format digits no_print twin_rows_table = Ok twin_rows_output
  /\ columns twin_rows_output
     = ["Handle"; "Option1 Name"; "Option1 Value"; "Option2 Name";
        "Option2 Value"; "Option3 Name"; "Option3 Value"; "New York Showroom"]
  /\ forall orow, In orow (rows twin_rows_output) ->
       List.length orow = 8
       /\ (exists i rs, In i slots /\ In rs (rows twin_rows_table)
             /\ pd.at_col (columns twin_rows_output) "Handle" orow
                = pd.at_col (columns twin_rows_table) "Style major" rs
             /\ pd.at_col (columns twin_rows_output) "Option2 Value" orow
                = pd.at_col (columns twin_rows_table) (size_col i) rs)
       /\ pd.at_col (columns twin_rows_output) "Option1 Name" orow = Str "Color"
       /\ pd.at_col (columns twin_rows_output) "Option2 Name" orow = Str "Size"
       /\ pd.at_col (columns twin_rows_output) "Option3 Name" orow = NaN
       /\ pd.at_col (columns twin_rows_output) "Option3 Value" orow = NaN.
Proof.
  split; [reflexivity|].
  exact (output_shape digits no_print twin_rows_table twin_rows_output eq_refl).
Defined.

(** [missing_color_is_empty_text] at a row without a color. *)
Lemma missing_color_is_empty_text_witness :
  convert_to_shopify_format digits no_print no_color_table = Ok no_color_output
  /\ (forall r, pd.at_col (columns no_color_table) "Color" r = NaN ->
                color_of no_print no_color_table r = "")
  /\ forall orow, In orow (rows no_color_output) ->
       exists i rs ro,
         In i slots /\ In rs (rows no_color_table) /\ In ro (rows no_color_table)
         /\ pd.at_col (columns no_color_output) "Handle" orow
            = style_of no_color_table rs
         /\ pd.at_col (columns no_color_output) "Option2 Value" orow
            = pd.at_col (columns no_color_table) (size_col i) rs
         /\ pd.at_col (columns no_color_output) "New York Showroom" orow
            = quantity digits (pd.at_col (columns no_color_table) (ots_col i) ro)
         /\ pd.at_col (columns no_color_output) "Option1 Value" orow
            = Str (color_of no_print no_color_table rs)
         /\ color_of no_print no_color_table ro
            = color_of no_print no_color_table rs
         /\ (pd.at_col (columns no_color_table) "Color" rs = NaN
             \/ pd.at_col (columns no_color_table) "Color" ro = NaN ->
             pd.at_col (columns no_color_output) "Option1 Value" orow = Str "").
Proof.
  split; [reflexivity|].
  exact (missing_color_is_empty_text digits no_print no_color_table
           no_color_output eq_refl).
Defined.



(** * Further properties of the conversion and of the page *)

Section More.

Set Default Proof Using "Type".

Variable str_to_num : string -> option number.
Variable num_to_str : Q -> string.

Lemma cell_eqb_refl (c : cell) : cell_eqb c c = true.
Proof.
  destruct c as [|s|q| |]; simpl; try reflexivity.
  - apply String.eqb_refl.
  - apply Qeq_bool_iff. reflexivity.
Qed.

Lemma present_all_in (cols : list string) (df : DataFrame) :
  filter (fun c => negb (pd.mem c (columns df))) (present cols df) = [].
Proof.
  rewrite (filter_ext_in _ (fun _ => false)); [apply filter_false|].
  intros c Hc. apply present_In in Hc. destruct Hc as [_ Hc].
  apply mem_In in Hc. now rewrite Hc.
Qed.

Lemma convert_cases (df : DataFrame) :
  (pd.mem "Style major" (columns df) = true /\ pd.mem "Color" (columns df) = true
   /\ convert_to_shopify_format str_to_num num_to_str df
      = if all_finite str_to_num num_to_str (joined_records num_to_str df)
        then Ok {| columns := final_cols;
                   rows := map (variant str_to_num)
                               (filter (kept str_to_num num_to_str)
                                       (joined_records num_to_str df)) |}
        else Raise IntCastingNaNError)
  \/ ((pd.mem "Style major" (columns df) = false
       \/ pd.mem "Color" (columns df) = false)
      /\ convert_to_shopify_format str_to_num num_to_str df
         = Raise (KeyError (filter (fun c => negb (pd.mem c (columns df)))
                                   ["Style major"; "Color"]))).
Proof.
  destruct (pd.mem "Style major" (columns df)) eqn:E1;
    destruct (pd.mem "Color" (columns df)) eqn:E2.
  - left. rewrite (convert_result str_to_num num_to_str df)
      by now apply mem_In.
    auto.
  - right. unfold convert_to_shopify_format, df_combined, pd.getitem.
    rewrite !filter_app, !present_all_in, !app_nil_r. cbn [filter].
    rewrite E1, E2. cbn [negb bind]. auto.
  - right. unfold convert_to_shopify_format, df_combined, pd.getitem.
    rewrite !filter_app, !present_all_in, !app_nil_r. cbn [filter].
    rewrite E1, E2. cbn [negb bind]. auto.
  - right. unfold convert_to_shopify_format, df_combined, pd.getitem.
    rewrite !filter_app, !present_all_in, !app_nil_r. cbn [filter].
    rewrite E1, E2. cbn [negb bind]. auto.
Qed.

(** A record that passes the filter with a quantity that is not finite
    holds plus infinity, read from an ots cell of an input row. *)
Lemma infinite_record (df : DataFrame) :
  all_finite str_to_num num_to_str (joined_records num_to_str df) = false ->
  exists r i,
    In r (rows df) /\ In i slots /\ In (ots_col i) (columns df)
    /\ pd.to_numeric str_to_num (pd.at_col (columns df) (ots_col i) r)
       = Some PlusInf.
Proof.
  intros H. unfold all_finite in H.
  assert (Hex : exists row,
             In row (filter (kept str_to_num num_to_str)
                            (joined_records num_to_str df))
             /\ pd.isfinite
                  (pd.fillna0 (pd.to_numeric str_to_num (nth 6 row NaN)))
                = false).
  { clear -H. induction (filter _ _) as [|row l IH]; simpl in H;
      [discriminate H|].
    destruct (pd.isfinite _) eqn:E.
    - destruct (IH H) as (r & Hr & Er). exists r. split; [now right|exact Er].
    - exists row. split; [now left|exact E]. }
  destruct Hex as (row & Hrow & Hinf).
  apply filter_In in Hrow. destruct Hrow as [Hrow Hk].
  apply joined_records_slot in Hrow.
  destruct Hrow as (i & rs & ro & Hi & Hv & Ho & Hrs & Hro & K1 & K2 & ->).
  rewrite kept_joined in Hk. apply andb_true_iff in Hk. destruct Hk as [Hq _].
  change (nth 6 (joined num_to_str df (size_col i) (ots_col i) rs ro) NaN)
    with (pd.at_col (columns df) (ots_col i) ro) in Hinf.
  exists ro, i. repeat split; try assumption.
  destruct (pd.to_numeric str_to_num (pd.at_col (columns df) (ots_col i) ro))
    as [[q| |]|]; try discriminate Hinf; [reflexivity|discriminate Hq].
Qed.

(** What the function asks of the table and how it fails: it returns a
    table only when the two grouping columns are present, whatever slot
    columns there are; it raises [KeyError] exactly with the absent ones
    among Style major and Color, in that order; and the only other
    exception, [IntCastingNaNError], needs both grouping columns and a
    quantity cell that reads as plus infinity. *)
Theorem convert_needs_grouping_columns (df : DataFrame) :
  let has c := pd.mem c (columns df) in
  match convert_to_shopify_format str_to_num num_to_str df with
  | Ok out => has "Style major" = true /\ has "Color" = true
  | Raise (KeyError missing) =>
      missing = filter (fun c => negb (has c)) ["Style major"; "Color"]
      /\ (has "Style major" = false \/ has "Color" = false)
  | Raise IntCastingNaNError =>
      has "Style major" = true /\ has "Color" = true
      /\ exists r i,
           In r (rows df) /\ In i slots /\ In (ots_col i) (columns df)
           /\ pd.to_numeric str_to_num (pd.at_col (columns df) (ots_col i) r)
              = Some PlusInf
  end.
Proof.
  cbv zeta. destruct (convert_cases df) as [(H1 & H2 & ->)|(H & ->)]; auto.
  destruct (all_finite _ _ _) eqn:E; auto.
  split; [exact H1|]. split; [exact H2|]. now apply infinite_record.
Qed.

(** No variant in stock is lost: when the function returns, an input row
    with, in some slot whose two columns are present, a quantity that reads
    as a number above zero and at most 2^53 and a label that is not blank
    gives the output row made of its style, its color, that label and the
    whole part of that quantity. *)
Theorem sellable_variant_emitted (df out : DataFrame) (i : nat)
        (r : list cell) (q : Q) :
  convert_to_shopify_format str_to_num num_to_str df = Ok out ->
  In i slots -> In (size_col i) (columns df) -> In (ots_col i) (columns df) ->
  In r (rows df) ->
  pd.to_numeric str_to_num (pd.at_col (columns df) (ots_col i) r)
  = Some (Finite q) ->
  (0 < q)%Q -> (q <= inject_Z (2 ^ 53))%Q ->
  py.strip (pd.astype_str num_to_str (pd.at_col (columns df) (size_col i) r))
  <> "" ->
  In [pd.at_col (columns df) "Style major" r; Str "Color";
      Str (pd.astype_str num_to_str
             (fillna_empty (pd.at_col (columns df) "Color" r)));
      Str "Size"; pd.at_col (columns df) (size_col i) r; NaN; NaN;
      Num (inject_Z (Qnum q / Zpos (Qden q)))]
     (rows out).
Proof.
  intros Hconv Hi Hv Ho Hr Hnum Hq Hmax Hl.
  assert (Hrange : (q < inject_Z (2 ^ 63))%Q).
  { eapply Qle_lt_trans; [exact Hmax|]. reflexivity. }
  rewrite <- (astype_int_whole q (Qlt_le_weak _ _ Hq) Hrange).
  apply (output_row_origin str_to_num num_to_str df _ _ Hconv).
  exists i, r, r. repeat split; try assumption.
  - apply cell_eqb_refl.
  - rewrite kept_joined, Hnum. apply andb_true_iff. split.
    + now apply gt0_spec.
    + apply Nat.ltb_lt. destruct (py.strip _); [contradiction|simpl; lia].
  - rewrite variant_joined. unfold quantity. rewrite Hnum. reflexivity.
Qed.


(** A table with the two grouping columns and with no row, or with no slot
    whose two columns are both present, converts to the eight columns and
    no row. *)
Theorem nothing_to_pair (df : DataFrame) :
  In "Style major" (columns df) -> In "Color" (columns df) ->
  rows df = []
  \/ (forall i, In i slots ->
        ~ (In (size_col i) (columns df) /\ In (ots_col i) (columns df))) ->
  convert_to_shopify_format str_to_num num_to_str df
  = Ok {| columns := ["Handle"; "Option1 Name"; "Option1 Value";
                      "Option2 Name"; "Option2 Value"; "Option3 Name";
                      "Option3 Value"; "New York Showroom"];
          rows := [] |}.
Proof.
  intros Hs Hc Hnone.
  assert (Hempty : joined_records num_to_str df = []).
  { destruct (joined_records num_to_str df) as [|row rest] eqn:E;
      [reflexivity|].
    assert (Hin : In row (joined_records num_to_str df))
      by (rewrite E; now left).
    apply joined_records_slot in Hin.
    destruct Hin as (i & rs & ro & Hi & Hv & Ho & Hrs & Hro & _).
    destruct Hnone as [Hnil|Hno].
    - rewrite Hnil in Hrs. contradiction.
    - exfalso. apply (Hno i Hi). now split. }
  rewrite (convert_result str_to_num num_to_str df Hs Hc).
  rewrite Hempty. reflexivity.
Qed.

(** ** The blank test of the filter *)

Lemma space2_not_space1 (a b : ascii) :
  py.space2 a b = true -> py.space1 a = false.
Proof.
  unfold py.space2, py.space1, py.byte_is. intros H.
  apply andb_true_iff in H. destruct H as [H _]. apply Nat.eqb_eq in H.
  now rewrite H.
Qed.

Lemma space3_not_space1 (a b c : ascii) :
  py.space3 a b c = true -> py.space1 a = false.
Proof.
  unfold py.space3, py.space1, py.byte_is. intros H.
  destruct (Nat.eqb_spec (nat_of_ascii a) 225) as [->|N1]; [reflexivity|].
  destruct (Nat.eqb_spec (nat_of_ascii a) 226) as [->|N2]; [reflexivity|].
  destruct (Nat.eqb_spec (nat_of_ascii a) 227) as [->|N3]; [reflexivity|].
  discriminate H.
Qed.

Lemma space3_not_space2 (a b c : ascii) :
  py.space3 a b c = true -> py.space2 a b = false.
Proof.
  unfold py.space3, py.space2, py.byte_is. intros H.
  destruct (Nat.eqb_spec (nat_of_ascii a) 225) as [->|N1]; [reflexivity|].
  destruct (Nat.eqb_spec (nat_of_ascii a) 226) as [->|N2]; [reflexivity|].
  destruct (Nat.eqb_spec (nat_of_ascii a) 227) as [->|N3]; [reflexivity|].
  discriminate H.
Qed.

Lemma lstrip_by_length (n : nat) (l : list ascii) :
  List.length l <= n ->
  py.no_space_ahead (py.lstrip_chars l)
  /\ (py.lstrip_chars l = [] -> py.all_space l)
  /\ (py.no_space_ahead l -> py.lstrip_chars l = l).
Proof.
  revert l. induction n as [|n IH]; intros l Hn.
  - destruct l; [|simpl in Hn; lia]. simpl.
    repeat split; auto; constructor.
  - destruct l as [|a l1]; [simpl; repeat split; auto; constructor|].
    simpl in Hn. cbn [py.lstrip_chars].
    destruct (py.space1 a) eqn:E1.
    { destruct (IH l1 ltac:(lia)) as (H1 & H2 & H3). split; [exact H1|]. split.
      - intros H. apply py.all_space_1; auto.
      - intros H. inversion H; subst; congruence. }
    destruct l1 as [|b l2].
    { repeat split; auto; try discriminate. now constructor. }
    simpl in Hn. destruct (py.space2 a b) eqn:E2.
    { destruct (IH l2 ltac:(lia)) as (H1 & H2 & H3). split; [exact H1|]. split.
      - intros H. apply py.all_space_2; auto.
      - intros H. inversion H; subst; congruence. }
    destruct l2 as [|c l3].
    { repeat split; auto; try discriminate. now constructor. }
    simpl in Hn. destruct (py.space3 a b c) eqn:E3.
    { destruct (IH l3 ltac:(lia)) as (H1 & H2 & H3). split; [exact H1|]. split.
      - intros H. apply py.all_space_3; auto.
      - intros H. inversion H; subst; congruence. }
    repeat split; auto; try discriminate. now constructor.
Qed.

Lemma all_space_lstrip (l : list ascii) :
  py.all_space l -> py.lstrip_chars l = [].
Proof.
  induction 1 as [|a l H _ IH|a b l H _ IH|a b c l H _ IH];
    cbn [py.lstrip_chars].
  - reflexivity.
  - now rewrite H.
  - now rewrite (space2_not_space1 a b H), H.
  - now rewrite (space3_not_space1 a b c H), (space3_not_space2 a b c H), H.
Qed.

Lemma all_space_app (l m : list ascii) :
  py.all_space l -> py.all_space m -> py.all_space (l ++ m).
Proof.
  induction 1; intros Hm; simpl;
    [assumption
    |apply py.all_space_1; auto
    |apply py.all_space_2; auto
    |apply py.all_space_3; auto].
Qed.

Lemma rstrip_by_length (n : nat) (l : list ascii) :
  List.length l <= n ->
  py.rstrip_reversed l = [] -> py.all_space (rev l).
Proof.
  revert l. induction n as [|n IH]; intros l Hn.
  - destruct l; [|simpl in Hn; lia]. intros _. constructor.
  - destruct l as [|a l1]; [intros _; constructor|].
    simpl in Hn. cbn [py.rstrip_reversed].
    destruct (py.space1 a) eqn:E1.
    { intros H. cbn [rev]. apply all_space_app; [apply IH; [lia|exact H]|].
      apply py.all_space_1; [exact E1|constructor]. }
    destruct l1 as [|b l2]; [discriminate|].
    simpl in Hn. destruct (py.space2 b a) eqn:E2.
    { intros H. cbn [rev]. rewrite <- app_assoc.
      apply all_space_app; [apply IH; [lia|exact H]|].
      apply py.all_space_2; [exact E2|constructor]. }
    destruct l2 as [|c l3]; [discriminate|].
    simpl in Hn. destruct (py.space3 c b a) eqn:E3; [|discriminate].
    intros H. cbn [rev]. rewrite <- !app_assoc.
    apply all_space_app; [apply IH; [lia|exact H]|].
    apply py.all_space_3; [exact E3|constructor].
Qed.

(** Trimming leaves nothing exactly of the texts made of whitespace
    characters only. *)
Lemma strip_empty (s : string) :
  py.strip s = "" <-> py.all_space (list_ascii_of_string s).
Proof.
  unfold py.strip. set (l := list_ascii_of_string s).
  destruct (lstrip_by_length (List.length l) l (le_n _)) as (Hno & Hnil & _).
  split.
  - intros H. apply Hnil.
    assert (H' : py.rstrip_reversed (rev (py.lstrip_chars l)) = []).
    { destruct (py.rstrip_reversed (rev (py.lstrip_chars l))) as [|a t] eqn:E;
        [reflexivity|].
      exfalso. destruct (rev (a :: t)) as [|b u] eqn:Er; [|discriminate H].
      apply (f_equal (@List.length ascii)) in Er. rewrite length_rev in Er.
      discriminate Er. }
    apply (rstrip_by_length _ _ (le_n _)) in H'. rewrite rev_involutive in H'.
    apply all_space_lstrip in H'.
    destruct (lstrip_by_length _ (py.lstrip_chars l) (le_n _)) as (_ & _ & Hid).
    now rewrite <- (Hid Hno).
  - intros H. rewrite (all_space_lstrip l H). reflexivity.
Qed.

(** The mask of the filter, for a record whose size label is a text: the
    record is kept exactly when its quantity reads as a number above zero,
    plus infinity included, and the label is not made of whitespace
    characters only.  The label is tested after trimming but kept as it
    is. *)
Theorem mask_on_text_label (cols : list string) (row : list cell) (s : string) :
  pd.at_col cols "Option2 Value" row = Str s ->
  (keep_mask str_to_num num_to_str cols row = true <->
   pd.gt0 (pd.fillna0 (pd.to_numeric str_to_num
                         (pd.at_col cols "New York Showroom" row))) = true
   /\ ~ py.all_space (list_ascii_of_string s)).
Proof.
  intros Hs. unfold keep_mask. rewrite Hs. cbn [pd.astype_str].
  rewrite andb_true_iff, Nat.ltb_lt, <- strip_empty.
  assert (Hlen : 0 < String.length (py.strip s) <-> py.strip s <> "").
  { destruct (py.strip s); simpl; split; intros H; try lia; try discriminate.
    now contradiction H. }
  now rewrite Hlen.
Qed.

(** ** Columns the function does not read *)

Lemma recognised_core (df : DataFrame) (c : string) :
  In c (["Style major"; "Color"] ++ present size_cols df ++ present ots_cols df) ->
  In c recognised.
Proof.
  unfold recognised. cbn [app In]. intros [<-|[<-|H]]; auto.
  right. right. apply in_app_or in H. apply in_or_app.
  destruct H as [H|H]; apply present_In in H; destruct H; auto.
Qed.

Lemma visible_at (df : DataFrame) (r : list cell) (c : string) :
  In c recognised ->
  pd.at_col recognised c (visible df r) = pd.at_col (columns df) c r.
Proof.
  intros H. unfold visible.
  now apply (at_col_map (fun c => pd.at_col (columns df) c r)).
Qed.

(** The result depends on the table through the recognised columns only:
    two tables that have the same recognised labels and, row by row, the same
    cells under them give the same result, from the function and from the
    upload handler, whatever their other columns and the order of their
    columns. *)
Theorem unrecognised_columns_ignored (df df' : DataFrame) :
  (forall c, In c recognised ->
             pd.mem c (columns df) = pd.mem c (columns df')) ->
  map (visible df) (rows df) = map (visible df') (rows df') ->
  convert_to_shopify_format str_to_num num_to_str df
  = convert_to_shopify_format str_to_num num_to_str df'
  /\ handle_upload str_to_num num_to_str df
     = handle_upload str_to_num num_to_str df'.
Proof.
  intros Hmem Hvis.
  assert (Hsz : present size_cols df = present size_cols df').
  { unfold present. apply filter_ext_in. intros c Hc. apply Hmem.
    unfold recognised. cbn [app In]. right. right. apply in_or_app. now left. }
  assert (Hot : present ots_cols df = present ots_cols df').
  { unfold present. apply filter_ext_in. intros c Hc. apply Hmem.
    unfold recognised. cbn [app In]. right. right. apply in_or_app. now right. }
  assert (Hget :
    pd.getitem df (["Style major"; "Color"]
                     ++ present size_cols df ++ present ots_cols df)
    = pd.getitem df' (["Style major"; "Color"]
                        ++ present size_cols df' ++ present ots_cols df')).
  { rewrite <- Hsz, <- Hot. unfold pd.getitem.
    set (core := ["Style major"; "Color"] ++ _ ++ _).
    assert (Hcore : forall c, In c core -> In c recognised)
      by (intros c; apply recognised_core).
    rewrite (filter_ext_in (fun c => negb (pd.mem c (columns df)))
                           (fun c => negb (pd.mem c (columns df'))) core)
      by (intros c Hc; now rewrite (Hmem c (Hcore c Hc))).
    destruct (filter _ core); [|reflexivity]. do 2 f_equal.
    transitivity (map (fun p => map (fun c => pd.at_col recognised c p) core)
                      (map (visible df) (rows df))).
    - rewrite map_map. apply map_ext. intros r. apply map_ext_in.
      intros c Hc. symmetry. apply visible_at. auto.
    - rewrite Hvis, map_map. apply map_ext. intros r. apply map_ext_in.
      intros c Hc. apply visible_at. auto. }
  assert (Hconv : convert_to_shopify_format str_to_num num_to_str df
                  = convert_to_shopify_format str_to_num num_to_str df').
  { unfold convert_to_shopify_format, df_combined. now rewrite Hget. }
  split; [exact Hconv|].
  unfold handle_upload, handle_upload_with. rewrite Hconv.
  replace (forallb (fun col => pd.mem col (columns df)) required_cols)
    with (forallb (fun col => pd.mem col (columns df')) required_cols);
    [reflexivity|].
  unfold required_cols. cbn [forallb].
  rewrite !Hmem; [reflexivity| | | |]; unfold recognised; simpl; auto 20.
Qed.

(** ** The order of the input rows *)

Lemma filter_perm {A : Type} (p : A -> bool) (l l' : list A) :
  Permutation l l' -> Permutation (filter p l) (filter p l').
Proof.
  induction 1 as [|x l l' _ IH|x y l|l l' l'' _ IH1 _ IH2]; simpl.
  - constructor.
  - destruct (p x); [now constructor|exact IH].
  - destruct (p x), (p y); try apply Permutation_refl.
    + constructor.
  - now transitivity (filter p l').
Qed.

Lemma forallb_perm {A : Type} (p : A -> bool) (l l' : list A) :
  Permutation l l' -> forallb p l = forallb p l'.
Proof.
  induction 1 as [|x l l' _ IH|x y l|l l' l'' _ IH1 _ IH2]; simpl.
  - reflexivity.
  - now rewrite IH.
  - destruct (p x), (p y); reflexivity.
  - now rewrite IH1.
Qed.

Lemma flat_map_perm_each {A B : Type} (f g : A -> list B) (l : list A) :
  (forall a, Permutation (f a) (g a)) ->
  Permutation (flat_map f l) (flat_map g l).
Proof.
  intros H. induction l as [|a l IH]; simpl.
  - constructor.
  - now apply Permutation_app.
Qed.

Lemma join_records_perm (L L' R R' : list (list cell)) :
  Permutation L L' -> Permutation R R' ->
  Permutation (join_records L R) (join_records L' R').
Proof.
  intros HL HR. unfold join_records.
  transitivity
    (flat_map (fun l => map (fun r => l ++ [nth 2 r NaN; nth 3 r NaN])
                            (filter (same_key l) R')) L).
  - apply flat_map_perm_each. intros l.
    apply Permutation_map. now apply filter_perm.
  - now apply Permutation_flat_map.
Qed.

(** Putting the input rows in another order changes nothing but the
    order of the output rows: the same exception, or the same columns and
    the same rows up to their order. *)
Theorem input_order_only_reorders (df df' : DataFrame) :
  columns df = columns df' ->
  Permutation (rows df) (rows df') ->
  match convert_to_shopify_format str_to_num num_to_str df,
        convert_to_shopify_format str_to_num num_to_str df' with
  | Ok out, Ok out' =>
      columns out = columns out' /\ Permutation (rows out) (rows out')
  | Raise e, Raise e' => e = e'
  | _, _ => False
  end.
Proof.
  intros Hcols Hrows.
  assert (HJ : Permutation (joined_records num_to_str df)
                           (joined_records num_to_str df')).
  { unfold joined_records. apply join_records_perm.
    - unfold size_records, present, style_of, color_of. rewrite Hcols.
      apply flat_map_perm_each. intros v. now apply Permutation_map.
    - unfold ots_records, present, style_of, color_of. rewrite Hcols.
      apply flat_map_perm_each. intros v. now apply Permutation_map. }
  assert (Hfin : all_finite str_to_num num_to_str (joined_records num_to_str df)
                 = all_finite str_to_num num_to_str
                     (joined_records num_to_str df')).
  { unfold all_finite. apply forallb_perm. now apply filter_perm. }
  destruct (convert_cases df) as [(H1 & H2 & ->)|(H & ->)];
    destruct (convert_cases df') as [(H1' & H2' & ->)|(H' & ->)];
    rewrite Hcols in *.
  - revert Hfin.
    generalize (all_finite str_to_num num_to_str (joined_records num_to_str df)),
      (all_finite str_to_num num_to_str (joined_records num_to_str df')).
    intros b b' <-. destruct b; cbn [columns rows]; [|reflexivity].
    split; [reflexivity|].
    now apply Permutation_map, filter_perm.
  - destruct H' as [H'|H']; congruence.
  - destruct H as [H|H]; congruence.
  - reflexivity.
Qed.

(** ** The name of the download *)

Lemma append_empty (s : string) : (s ++ "")%string = s.
Proof.
  induction s as [|c s IH]; simpl; [reflexivity|]. now rewrite IH.
Qed.

Lemma prefix_empty (s : string) : String.prefix "" s = true.
Proof. destruct s; reflexivity. Qed.

(** A stretch of text without the first character of [old] is copied as
    it is. *)
Lemma replace_fresh (c : ascii) (old new a s : string) :
  py.lacks c a = true ->
  py.replace_skip (String c old) new 0 (a ++ s)
  = (a ++ py.replace_skip (String c old) new 0 s)%string.
Proof.
  induction a as [|b a IH]; simpl; intros H; [reflexivity|].
  apply andb_true_iff in H. destruct H as [Hb Ha].
  apply negb_true_iff, Ascii.eqb_neq in Hb.
  destruct (ascii_dec c b) as [E|_]; [congruence|].
  now rewrite <- (IH Ha).
Qed.

Lemma replace_none (c : ascii) (old new a : string) :
  py.lacks c a = true -> py.replace (String c old) new a = a.
Proof.
  intros H. unfold py.replace.
  rewrite <- (append_empty a) at 1. rewrite (replace_fresh c old new a "" H).
  apply append_empty.
Qed.

(** A file named with the marker [WEB OTS] and the extension [.csv] is
    offered under the same name with [Shopify_Cleaned] for the marker,
    trimmed, when the rest of the name has no dot and no capital W. *)
Theorem output_filename_marker (a b : string) :
  py.lacks "." a = true -> py.lacks "W" a = true ->
  py.lacks "." b = true -> py.lacks "W" b = true ->
  output_filename (a ++ "WEB OTS" ++ b ++ ".csv")
  = (py.strip (a ++ "Shopify_Cleaned" ++ b) ++ ".csv")%string.
Proof.
  intros Ha1 Ha2 Hb1 Hb2. unfold output_filename. f_equal. f_equal.
  assert (H1 : py.replace ".csv" "" (a ++ "WEB OTS" ++ b ++ ".csv")
               = (a ++ "WEB OTS" ++ b)%string).
  { unfold py.replace. rewrite (replace_fresh "." "csv" "" a _ Ha1).
    f_equal.
    change (("WEB OTS" ++ b ++ ".csv")%string)
      with (("WEB OTS" ++ (b ++ ".csv"))%string).
    rewrite (replace_fresh "." "csv" "" "WEB OTS" _ eq_refl).
    rewrite (replace_fresh "." "csv" "" b _ Hb1).
    cbn. now rewrite append_empty. }
  rewrite H1. unfold py.replace.
  rewrite (replace_fresh "W" "EB OTS" "Shopify_Cleaned" a _ Ha2). f_equal.
  cbn. rewrite prefix_empty. do 15 f_equal.
  apply (replace_none "W" "EB OTS" "Shopify_Cleaned" b Hb2).
Qed.

(** A file named without the marker keeps its name, trimmed: the
    extension [.csv] is taken off and put back, and it is added to a name
    that has none, when the name has no dot and no capital W before the
    extension. *)
Theorem output_filename_plain (a : string) :
  py.lacks "." a = true -> py.lacks "W" a = true ->
  output_filename (a ++ ".csv") = (py.strip a ++ ".csv")%string
  /\ output_filename a = (py.strip a ++ ".csv")%string.
Proof.
  intros H1 H2. unfold output_filename. split; f_equal; f_equal.
  - unfold py.replace at 2. rewrite (replace_fresh "." "csv" "" a _ H1).
    cbn. rewrite append_empty.
    apply (replace_none "W" "EB OTS" "Shopify_Cleaned" a H2).
  - rewrite (replace_none "." "csv" "" a H1).
    apply (replace_none "W" "EB OTS" "Shopify_Cleaned" a H2).
Qed.

(** The extension is taken off wherever it stands in the name, not only
    at its end: a name with [.csv] after a stretch without dot is treated as
    the name without it. *)
Theorem extension_removed_anywhere (a b : string) :
  py.lacks "." a = true ->
  output_filename (a ++ ".csv" ++ b) = output_filename (a ++ b).
Proof.
  intros Ha. unfold output_filename, py.replace. do 3 f_equal.
  rewrite !(replace_fresh "." "csv" "" a _ Ha). f_equal.
  cbn. now rewrite prefix_empty.
Qed.

(** The demand for slot 1 is the guard's, not the function's: a table
    with the two grouping columns and without [Size 1] or [ots1] is refused
    by the upload handler, though the function raises no [KeyError] for it
    and, when no quantity cell reads as plus infinity, converts it. *)
Theorem guard_refuses_convertible_table (data : DataFrame) :
  In "Style major" (columns data) -> In "Color" (columns data) ->
  ~ (In "Size 1" (columns data) /\ In "ots1" (columns data)) ->
  handle_upload str_to_num num_to_str data = SchemaError
  /\ (forall missing,
        convert_to_shopify_format str_to_num num_to_str data
        <> Raise (KeyError missing))
  /\ ((forall r i, In r (rows data) -> In i slots ->
         pd.to_numeric str_to_num (pd.at_col (columns data) (ots_col i) r)
         <> Some PlusInf) ->
      exists out,
        convert_to_shopify_format str_to_num num_to_str data = Ok out).
Proof.
  intros Hs Hc Hno. split; [|split].
  - unfold handle_upload, handle_upload_with.
    destruct (forallb _ required_cols) eqn:E; [|reflexivity].
    exfalso. apply Hno. rewrite forallb_forall in E.
    split; apply mem_In, E; simpl; auto.
  - intros missing. rewrite (convert_result str_to_num num_to_str data Hs Hc).
    destruct (all_finite _ _ _); discriminate.
  - intros Hfin. eexists.
    apply (convert_ok str_to_num num_to_str data Hs Hc
             (no_inf_all_finite str_to_num num_to_str data Hfin)).
Qed.

End More.

(** * The further properties at sample tables and names *)

Lemma sellable_variant_emitted_witness :
  convert_to_shopify_format digits no_print twin_rows_table = Ok twin_rows_output
  /\ In 1 slots
  /\ In (size_col 1) (columns twin_rows_table)
  /\ In (ots_col 1) (columns twin_rows_table)
  /\ In [Str "ABC123"; Str "Red"; Str "S"; Num 5] (rows twin_rows_table)
  /\ (0 < 5)%Q /\ (5 <= inject_Z (2 ^ 53))%Q
  /\ In [Str "ABC123"; Str "Color"; Str "Red"; Str "Size"; Str "S";
         NaN; NaN; Num 5] (rows twin_rows_output).
Proof.
  assert (H3 : In 1 slots) by (simpl; auto).
  assert (H4 : In (size_col 1) (columns twin_rows_table)) by (simpl; auto).
  assert (H5 : In (ots_col 1) (columns twin_rows_table)) by (simpl; auto).
  assert (H6 : In [Str "ABC123"; Str "Red"; Str "S"; Num 5]
                  (rows twin_rows_table)) by (simpl; auto).
  assert (H7 : (0 < 5)%Q) by reflexivity.
  assert (H8 : (5 <= inject_Z (2 ^ 53))%Q) by discriminate.
  split; [reflexivity|]. do 6 (split; [assumption|]).
  refine (sellable_variant_emitted digits no_print twin_rows_table
            twin_rows_output 1 [Str "ABC123"; Str "Red"; Str "S"; Num 5] 5%Q
            eq_refl H3 H4 H5 H6 eq_refl H7 H8 _).
  discriminate.
Defined.


Lemma nothing_to_pair_witness :
  In "Style major" (columns header_only_table)
  /\ In "Color" (columns header_only_table)
  /\ rows header_only_table = []
  /\ convert_to_shopify_format digits no_print header_only_table
     = Ok {| columns := ["Handle"; "Option1 Name"; "Option1 Value";
                         "Option2 Name"; "Option2 Value"; "Option3 Name";
                         "Option3 Value"; "New York Showroom"];
             rows := [] |}.
Proof.
  assert (H1 : In "Style major" (columns header_only_table)) by (simpl; auto).
  assert (H2 : In "Color" (columns header_only_table)) by (simpl; auto).
  split; [exact H1|]. split; [exact H2|]. split; [reflexivity|].
  exact (nothing_to_pair digits no_print header_only_table H1 H2
           (or_introl eq_refl)).
Defined.

Lemma mask_on_text_label_witness :
  pd.at_col (columns twin_rows_merged) "Option2 Value"
    [Str "ABC123"; Str "Red"; Str "Size 1"; Str " S"; Str "1"; Str "ots1"; Num 5]
  = Str " S"
  /\ (keep_mask digits no_print (columns twin_rows_merged)
        [Str "ABC123"; Str "Red"; Str "Size 1"; Str " S"; Str "1"; Str "ots1";
         Num 5] = true <->
      pd.gt0 (pd.fillna0
                (pd.to_numeric digits
                   (pd.at_col (columns twin_rows_merged) "New York Showroom"
                      [Str "ABC123"; Str "Red"; Str "Size 1"; Str " S"; Str "1";
                       Str "ots1"; Num 5]))) = true
      /\ ~ py.all_space (list_ascii_of_string " S")).
Proof.
  split; [reflexivity|].
  exact (mask_on_text_label digits no_print (columns twin_rows_merged)
           [Str "ABC123"; Str "Red"; Str "Size 1"; Str " S"; Str "1";
            Str "ots1"; Num 5] " S" eq_refl).
Defined.

Lemma unrecognised_columns_ignored_witness :
  (forall c, In c recognised ->
             pd.mem c (columns shuffled_table) = pd.mem c (columns twin_rows_table))
  /\ map (visible shuffled_table) (rows shuffled_table)
     = map (visible twin_rows_table) (rows twin_rows_table)
  /\ convert_to_shopify_format digits no_print shuffled_table
     = convert_to_shopify_format digits no_print twin_rows_table
  /\ handle_upload digits no_print shuffled_table
     = handle_upload digits no_print twin_rows_table.
Proof.
  assert (H1 : forall c, In c recognised ->
                 pd.mem c (columns shuffled_table)
                 = pd.mem c (columns twin_rows_table)).
  { intros c H. cbv [recognised size_cols ots_cols py.range seq map app
                     Nat.sub In] in H.
    repeat (destruct H as [<-|H]; [reflexivity|]). contradiction. }
  assert (H2 : map (visible shuffled_table) (rows shuffled_table)
               = map (visible twin_rows_table) (rows twin_rows_table))
    by reflexivity.
  split; [exact H1|]. split; [exact H2|].
  exact (unrecognised_columns_ignored digits no_print shuffled_table
           twin_rows_table H1 H2).
Defined.

Lemma input_order_only_reorders_witness :
  columns swapped_rows_table = columns twin_rows_table
  /\ Permutation (rows swapped_rows_table) (rows twin_rows_table)
  /\ match convert_to_shopify_format digits no_print swapped_rows_table,
           convert_to_shopify_format digits no_print twin_rows_table with
     | Ok out, Ok out' =>
         columns out = columns out' /\ Permutation (rows out) (rows out')
     | Raise e, Raise e' => e = e'
     | _, _ => False
     end.
Proof.
  assert (H : Permutation (rows swapped_rows_table) (rows twin_rows_table))
    by apply perm_swap.
  split; [reflexivity|]. split; [exact H|].
  exact (input_order_only_reorders digits no_print swapped_rows_table
           twin_rows_table eq_refl H).
Defined.

Lemma output_filename_marker_witness :
  py.lacks "." "STYLE " = true /\ py.lacks "W" "STYLE " = true
  /\ py.lacks "." " 2024" = true /\ py.lacks "W" " 2024" = true
  /\ output_filename "STYLE WEB OTS 2024.csv" = "STYLE Shopify_Cleaned 2024.csv".
Proof.
  do 4 (split; [reflexivity|]).
  exact (output_filename_marker "STYLE " " 2024" eq_refl eq_refl eq_refl eq_refl).
Defined.

Lemma output_filename_plain_witness :
  py.lacks "." " inventory" = true /\ py.lacks "W" " inventory" = true
  /\ output_filename " inventory.csv" = "inventory.csv"
  /\ output_filename " inventory" = "inventory.csv".
Proof.
  split; [reflexivity|]. split; [reflexivity|].
  exact (output_filename_plain " inventory" eq_refl eq_refl).
Defined.

Lemma extension_removed_anywhere_witness :
  py.lacks "." "data" = true
  /\ output_filename "data.csv.bak" = output_filename "data.bak".
Proof.
  split; [reflexivity|].
  exact (extension_removed_anywhere "data" ".bak" eq_refl).
Defined.

Lemma guard_refuses_convertible_table_witness :
  In "Style major" (columns slot2_table) /\ In "Color" (columns slot2_table)
  /\ ~ (In "Size 1" (columns slot2_table) /\ In "ots1" (columns slot2_table))
  /\ (forall r i, In r (rows slot2_table) -> In i slots ->
        pd.to_numeric digits (pd.at_col (columns slot2_table) (ots_col i) r)
        <> Some PlusInf)
  /\ handle_upload digits no_print slot2_table = SchemaError
  /\ (forall missing,
        convert_to_shopify_format digits no_print slot2_table
        <> Raise (KeyError missing))
  /\ exists out, convert_to_shopify_format digits no_print slot2_table = Ok out.
Proof.
  assert (H1 : In "Style major" (columns slot2_table)) by (simpl; auto).
  assert (H2 : In "Color" (columns slot2_table)) by (simpl; auto).
  assert (H3 : ~ (In "Size 1" (columns slot2_table)
                  /\ In "ots1" (columns slot2_table))).
  { simpl. intros [[H|[H|[H|[H|[]]]]] _]; discriminate H. }
  assert (H4 : forall r i, In r (rows slot2_table) -> In i slots ->
            pd.to_numeric digits (pd.at_col (columns slot2_table) (ots_col i) r)
            <> Some PlusInf)
    by no_infinity.
  split; [exact H1|]. split; [exact H2|]. split; [exact H3|].
  split; [exact H4|].
  destruct (guard_refuses_convertible_table digits no_print slot2_table
              H1 H2 H3) as (G1 & G2 & G3).
  split; [exact G1|]. split; [exact G2|]. exact (G3 H4).
Defined.
